(** * Client-service dashboard data mart: the SQL pipeline of
    [client-service.ipynb], embedded as list-processing functions.

    The views [v_response_first] and [dash_client_service_view] and the
    refresh block of [dash_client_service_table] are translated CTE by CTE.
    Tables are lists of records (bags of rows), a nullable value is an
    [option], and a SQL condition is a three-valued [option bool]. *)

From Stdlib Require Import ZArith List Bool Lia String Permutation.
Import ListNotations.
Open Scope Z_scope.

(** ** SQL values: NULL and three-valued conditions *)
Module Sql.

(** A condition is TRUE, FALSE or NULL (unknown). *)
Definition cond := option bool.

Definition and3 (a b : cond) : cond :=
  match a, b with
  | Some false, _ | _, Some false => Some false
  | Some true, Some true => Some true
  | _, _ => None
  end.

Definition or3 (a b : cond) : cond :=
  match a, b with
  | Some true, _ | _, Some true => Some true
  | Some false, Some false => Some false
  | _, _ => None
  end.

(** [a = b] on integers: NULL as soon as one side is NULL. *)
Definition eq3 (a b : option Z) : cond :=
  match a, b with
  | Some x, Some y => Some (x =? y)
  | _, _ => None
  end.

(** [a >= b] on timestamps, with the same NULL rule. *)
Definition ge3 (a b : option Z) : cond :=
  match a, b with
  | Some x, Some y => Some (y <=? x)
  | _, _ => None
  end.

(** A WHEN or WHERE clause fires only on TRUE. *)
Definition holds (c : cond) : bool :=
  match c with Some true => true | _ => false end.

(** [MIN(...)] over a column: NULL on the empty bag. *)
Definition min (l : list Z) : option Z :=
  match l with
  | [] => None
  | x :: xs => Some (fold_left Z.min xs x)
  end.

(** [l LEFT JOIN r ON on]: every left row is kept; it is paired with each
    matching right row, or once with NULLs when nothing matches. *)
Definition left_join {A B : Type} (on : A -> B -> bool)
    (l : list A) (r : list B) : list (A * option B) :=
  flat_map (fun a =>
              match filter (on a) r with
              | [] => [(a, None)]
              | ms => map (fun b => (a, Some b)) ms
              end) l.

(** [ROUND(n / d, 0)] for an exact quotient of integers, [0 < d]:
    nearest integer, a tie goes away from zero (PostgreSQL numeric). *)
Definition round_div (n d : Z) : Z :=
  Z.sgn n * ((2 * Z.abs n + d) / (2 * d)).

End Sql.

(** ** Timestamps, dates and times of day

    A [timestamp] counts microseconds from 2000-01-01 00:00:00, a [date]
    counts days from 2000-01-01 (a Saturday), a [time] counts microseconds
    from midnight; an [interval] is a number of microseconds. *)
Module Time.

Definition timestamp := Z.
Definition date := Z.
Definition time := Z.
Definition interval := Z.

Definition USECS_PER_HOUR : Z := 3600000000.
Definition USECS_PER_DAY : Z := 86400000000.

(** [INTERVAL 'n hours'] and [INTERVAL 'n days'] *)
Definition hours (n : Z) : interval := n * USECS_PER_HOUR.
Definition days (n : Z) : interval := n * USECS_PER_DAY.

(** ['hh:00:00'] as a time of day *)
Definition clock (h : Z) : time := h * USECS_PER_HOUR.

(** [t::date] *)
Definition to_date (t : timestamp) : date := t / USECS_PER_DAY.

(** [t::time] *)
Definition to_time (t : timestamp) : time := t mod USECS_PER_DAY.

(** [EXTRACT(dow FROM t)]: Sunday is 0, Friday is 5, Saturday is 6. *)
Definition extract_dow (t : timestamp) : Z := (to_date t + 6) mod 7.

(** [d + i] for a date and an interval: the date is taken at midnight. *)
Definition date_plus (d : date) (i : interval) : timestamp :=
  d * USECS_PER_DAY + i.

(** [d] at [h] o'clock *)
Definition at_hour (d : date) (h : Z) : timestamp := date_plus d (hours h).

(** [d] at [h]:[m] *)
Definition at_time (d : date) (h m : Z) : timestamp :=
  date_plus d (hours h + m * 60000000).

End Time.

Import Time.

(** ** Tables *)

(** [all_raw]: the event log. Only [date_response] is nullable. *)
Record all_raw_row : Type := mk_all_raw {
  raw_id_client : Z;
  raw_date_request : timestamp;
  raw_date_response : option timestamp;
  raw_manager : string;
  raw_action_manager : string;
  raw_source_client : string
}.

(** [dict_calendar]: the business calendar; [is_working] is the integer
    column the view compares with 0 and 1. *)
Record dict_calendar_row : Type := mk_calendar {
  date_calendar : date;
  is_working : Z
}.

(** [dict_candidate]: the client roster. *)
Record dict_candidate_row : Type := mk_candidate {
  cand_ID : Z;
  cand_id_client : Z;
  cand_date_request : timestamp;
  cand_source_client : string
}.

(** Rows of the CTE [all_response] (and of [first_response], whose three
    extra columns are the functions [dow], [date_req], [time_req] below). *)
Record all_response_row : Type := mk_all_response {
  id_client : Z;
  date_request : timestamp;
  date_response : option timestamp;
  manager : string;
  rn : Z
}.

(** Rows of the CTE [shift_request]. *)
Record shift_request_row : Type := mk_shift_request {
  sr_id_client : Z;
  sr_manager : string;
  sr_date_request : timestamp;
  sr_date_response : option timestamp;
  sr_date_registration : option timestamp
}.

(** Rows of the view [v_response_first]; [vrf_interval_hours] is a
    [numeric] with two decimals, held as a number of hundredths. *)
Record v_response_first_row : Type := mk_vrf {
  vrf_id_client : Z;
  vrf_manager : string;
  vrf_date_request : timestamp;
  vrf_date_response : option timestamp;
  vrf_date_registration : option timestamp;
  vrf_interval_hours : option Z
}.

(** Rows of [dash_client_service_view] and [dash_client_service_table]. *)
Record dash_row : Type := mk_dash {
  dash_id_client : Z;
  response_status : string;
  dash_date_request : timestamp;
  dash_date_registration : option timestamp;
  dash_date_response : option timestamp;
  dash_interval_hours : option Z;
  dash_manager : option string
}.

(** ** Step 2: [all_response] and [first_response] *)

(** [source_client IN (SELECT name_source FROM source_list)] *)
Definition in_source_list (source_list : list string) (s : string) : bool :=
  existsb (String.eqb s) source_list.

(** The WHERE clause of [all_response]. *)
Definition is_response (source_list : list string) (r : all_raw_row) : bool :=
  (raw_action_manager r =? "response")%string
  && in_source_list source_list (raw_source_client r).

(** [ORDER BY date_response ASC]: NULLs sort last. *)
Definition response_le (a b : option timestamp) : bool :=
  match a, b with
  | Some x, Some y => x <=? y
  | _, None => true
  | None, Some _ => false
  end.

Fixpoint insert_by_response (r : all_raw_row) (l : list all_raw_row)
  : list all_raw_row :=
  match l with
  | [] => [r]
  | x :: xs =>
      if response_le (raw_date_response r) (raw_date_response x)
      then r :: l
      else x :: insert_by_response r xs
  end.

(** The window's ordering: rows tied on [date_response] keep the order in
    which the scan delivers them. *)
Definition order_by_response (l : list all_raw_row) : list all_raw_row :=
  fold_right insert_by_response [] l.

(** [ROW_NUMBER()] over one ordered partition, counting from [n]. *)
Fixpoint row_number (n : Z) (l : list all_raw_row) : list all_response_row :=
  match l with
  | [] => []
  | r :: rs =>
      mk_all_response (raw_id_client r) (raw_date_request r)
        (raw_date_response r) (raw_manager r) n
      :: row_number (n + 1) rs
  end.

(** [PARTITION BY id_client]: the rows of client [c]. *)
Definition partition_of (c : Z) (l : list all_raw_row) : list all_raw_row :=
  filter (fun r => raw_id_client r =? c) l.

(** The distinct partition keys. *)
Definition clients (l : list all_raw_row) : list Z :=
  nodup Z.eq_dec (map raw_id_client l).

Definition all_response (source_list : list string) (all_raw : list all_raw_row)
  : list all_response_row :=
  let responses := filter (is_response source_list) all_raw in
  flat_map (fun c => row_number 1 (order_by_response (partition_of c responses)))
           (clients responses).

Definition first_response (source_list : list string) (all_raw : list all_raw_row)
  : list all_response_row :=
  filter (fun r => rn r =? 1) (all_response source_list all_raw).

(** The three computed columns of [first_response]. *)
Definition dow (fr : all_response_row) : Z := extract_dow (date_request fr).
Definition date_req (fr : all_response_row) : date := to_date (date_request fr).
Definition time_req (fr : all_response_row) : time := to_time (date_request fr).

(** ** Step 3: [shift_request] *)

(** The scalar subquery
    [SELECT MIN(date_calendar) FROM dict_calendar
     WHERE date_calendar > d AND is_working = 1]. *)
Definition next_working_date (dict_calendar : list dict_calendar_row) (d : date)
  : option date :=
  Sql.min (map date_calendar
             (filter (fun dc => (d <? date_calendar dc) && (is_working dc =? 1))
                     dict_calendar)).

(** First WHEN: [is_working = 0 OR (is_working = 1 AND dow = 5 AND
    time_req > '20:00:00')]; [w] is [dc.is_working], NULL on a join miss. *)
Definition when_next_working (w : option Z) (fr : all_response_row) : Sql.cond :=
  Sql.or3 (Sql.eq3 w (Some 0))
          (Sql.and3 (Sql.and3 (Sql.eq3 w (Some 1)) (Some (dow fr =? 5)))
                    (Some (clock 20 <? time_req fr))).

(** Second WHEN: [is_working = 1 AND time_req < '09:00:00']. *)
Definition when_before_opening (w : option Z) (fr : all_response_row) : Sql.cond :=
  Sql.and3 (Sql.eq3 w (Some 1)) (Some (time_req fr <? clock 9)).

(** Third WHEN: [is_working = 1 AND dow != 5 AND time_req > '20:00:00']. *)
Definition when_after_closing (w : option Z) (fr : all_response_row) : Sql.cond :=
  Sql.and3 (Sql.and3 (Sql.eq3 w (Some 1)) (Some (negb (dow fr =? 5))))
           (Some (clock 20 <? time_req fr)).

(** The CASE expression [date_registration] for a row [fr] joined with the
    calendar row [dc] ([None] when the LEFT JOIN found no row). *)
Definition date_registration (dict_calendar : list dict_calendar_row)
    (fr : all_response_row) (dc : option dict_calendar_row) : option timestamp :=
  let w := option_map is_working dc in
  if Sql.holds (when_next_working w fr) then
    option_map (fun d => date_plus d (hours 9))
               (next_working_date dict_calendar (date_req fr))
  else if Sql.holds (when_before_opening w fr) then
    Some (date_plus (date_req fr) (hours 9))
  else if Sql.holds (when_after_closing w fr) then
    Some (date_plus (date_req fr) (days 1 + hours 9))
  else
    Some (date_request fr).

(** [first_response fr LEFT JOIN dict_calendar dc
     ON fr.date_req = dc.date_calendar] *)
Definition join_calendar (dict_calendar : list dict_calendar_row)
    (frs : list all_response_row)
  : list (all_response_row * option dict_calendar_row) :=
  Sql.left_join (fun fr dc => date_req fr =? date_calendar dc) frs dict_calendar.

Definition shift_row (dict_calendar : list dict_calendar_row)
    (j : all_response_row * option dict_calendar_row) : shift_request_row :=
  let (fr, dc) := j in
  mk_shift_request (id_client fr) (manager fr) (date_request fr)
    (date_response fr) (date_registration dict_calendar fr dc).

Definition shift_request (dict_calendar : list dict_calendar_row)
    (frs : list all_response_row) : list shift_request_row :=
  map (shift_row dict_calendar) (join_calendar dict_calendar frs).

(** ** Step 4: [interval_hours] and the view [v_response_first] *)

(** One hundredth of an hour is 36 seconds. *)
Definition USECS_PER_CENTIHOUR : Z := 36000000.

(** *** The numeric division of PostgreSQL

    [EXTRACT(EPOCH FROM date_response - date_registration)] is a numeric
    with six decimals, [u / 10^6] for a difference of [u] microseconds. It
    is divided by the integer 3600; the quotient of two numerics is rounded
    to a number of decimals chosen from the base-10000 digits of the
    operands, and only then does [ROUND(_, 2)] see it. *)

(** The index of the leading base-10000 digit of [n], for [1 <= n]. *)
Fixpoint nbase_weight_fuel (fuel : nat) (n : Z) : Z :=
  match fuel with
  | O => 0
  | S fuel' =>
      if n <? 10000 then 0 else 1 + nbase_weight_fuel fuel' (n / 10000)
  end.

Definition nbase_weight (n : Z) : Z :=
  nbase_weight_fuel (Z.to_nat (Z.log2 n)) n.

(** The scale (number of decimals) of the quotient [(u / 10^6) / 3600]:
    sixteen significant digits are aimed at, estimated from the weight and
    first base-10000 digit of each operand, and no fewer decimals than
    either operand shows. The dividend [|u| / 10^6] is [100 * |u|] units
    of [10^-8], two base-10000 digits after the point; zero has weight 0
    and first digit 0. The divisor 3600 is one digit, 3600, of weight 0. *)
Definition epoch_div_scale (u : Z) : Z :=
  let n := 100 * Z.abs u in
  let weight1 := if n =? 0 then 0 else nbase_weight n - 2 in
  let firstdigit1 := if n =? 0 then 0 else n / 10000 ^ nbase_weight n in
  let weight2 := 0 in
  let firstdigit2 := 3600 in
  let qweight :=
    if firstdigit1 <=? firstdigit2 then weight1 - weight2 - 1
    else weight1 - weight2 in
  Z.min (Z.max (Z.max (Z.max (16 - qweight * 4) 6) 0) 0) 1000.

(** The hundredths obtained when the quotient [u / (3600 * 10^6)] is first
    rounded to [s] decimals by the division and then to two by ROUND. *)
Definition round_hours_via (s : Z) (u : Z) : Z :=
  Sql.round_div (Sql.round_div (u * 10 ^ s) (3600 * 1000000)) (10 ^ (s - 2)).

(** [ROUND(EXTRACT(EPOCH FROM date_response - date_registration) / 3600, 2)],
    in hundredths; NULL as soon as one timestamp is NULL. *)
Definition interval_hours (response registration : option timestamp) : option Z :=
  match response, registration with
  | Some rs, Some rg =>
      Some (round_hours_via (epoch_div_scale (rs - rg)) (rs - rg))
  | _, _ => None
  end.

Definition with_interval (s : shift_request_row) : v_response_first_row :=
  mk_vrf (sr_id_client s) (sr_manager s) (sr_date_request s)
    (sr_date_response s) (sr_date_registration s)
    (interval_hours (sr_date_response s) (sr_date_registration s)).

Definition v_response_first (source_list : list string)
    (all_raw : list all_raw_row) (dict_calendar : list dict_calendar_row)
  : list v_response_first_row :=
  map with_interval
      (shift_request dict_calendar (first_response source_list all_raw)).

(** ** Step 5: [dash_client_service_view] *)

Definition dash_of (j : dict_candidate_row * option v_response_first_row)
  : dash_row :=
  let (dc, vrf) := j in
  let response := match vrf with Some v => vrf_date_response v | None => None end in
  mk_dash (cand_id_client dc)
    (match response with None => "wait" | Some _ => "done" end)%string
    (cand_date_request dc)
    (match vrf with Some v => vrf_date_registration v | None => None end)
    response
    (match vrf with Some v => vrf_interval_hours v | None => None end)
    (option_map vrf_manager vrf).

Definition dash_client_service_view (source_list : list string)
    (all_raw : list all_raw_row) (dict_calendar : list dict_calendar_row)
    (dict_candidate : list dict_candidate_row) : list dash_row :=
  map dash_of
      (filter (fun j => in_source_list source_list (cand_source_client (fst j)))
              (Sql.left_join (fun dc vrf => vrf_id_client vrf =? cand_ID dc)
                 dict_candidate
                 (v_response_first source_list all_raw dict_calendar))).

(** ** Steps 6 and 7: [dash_client_service_table] and its refresh block

    The block is two statements, with no BEGIN or COMMIT written around
    them, and the source does not say how it is sent to the server. Sent
    statement by statement, each one is committed on its own; sent as one
    query string, the server runs it as one transaction and undoes all of
    it when a statement fails. Reading the view can fail (a source table
    cannot be read); [view] is [None] in that case. *)

Inductive statement : Type :=
| TRUNCATE_TABLE
| INSERT_SELECT_VIEW.

Inductive mode : Type :=
| Autocommit
| OneTransaction.

(** One statement on the table: the new contents, or [None] when the
    statement raises an error (the statement itself then changes nothing). *)
Definition exec (view : option (list dash_row)) (s : statement)
    (table : list dash_row) : option (list dash_row) :=
  match s with
  | TRUNCATE_TABLE => Some []
  | INSERT_SELECT_VIEW => option_map (fun rows => table ++ rows) view
  end.

(** The statements one after the other, stopping at the first error: the
    table as the statements executed so far leave it, and whether all of
    them ran. *)
Fixpoint run_statements (view : option (list dash_row)) (script : list statement)
    (table : list dash_row) : list dash_row * bool :=
  match script with
  | [] => (table, true)
  | s :: rest =>
      match exec view s table with
      | Some table' => run_statements view rest table'
      | None => (table, false)
      end
  end.

(** A script under a mode: with [Autocommit] what the executed statements
    did stays; with [OneTransaction] a failure restores the table the
    script started from. *)
Definition run (m : mode) (view : option (list dash_row))
    (script : list statement) (table : list dash_row) : list dash_row * bool :=
  match m, run_statements view script table with
  | OneTransaction, (_, false) => (table, false)
  | _, result => result
  end.

Definition refresh_block : list statement := [TRUNCATE_TABLE; INSERT_SELECT_VIEW].

Definition refresh (m : mode) (view : option (list dash_row))
    (table : list dash_row) : list dash_row * bool :=
  run m view refresh_block table.

(** The rows of the last view that could be read, [table] when there is
    none. *)
Definition last_read (views : list (option (list dash_row)))
    (table : list dash_row) : list dash_row :=
  fold_left (fun t v => match v with Some rows => rows | None => t end)
            views table.

(** ** The words of the rules

    [m] is a working calendar date strictly after [d]. *)
Definition working_after (dict_calendar : list dict_calendar_row) (d m : date)
  : Prop :=
  d < m /\ exists e, In e dict_calendar /\ date_calendar e = m /\ is_working e = 1.

(** No working calendar date lies after [d]: the calendar is exhausted. *)
Definition calendar_exhausted (dict_calendar : list dict_calendar_row) (d : date)
  : Prop :=
  forall m, ~ working_after dict_calendar d m.

(** Rule 1 applies to a request whose calendar row has [is_working = w]:
    the date is non-working, or it is a working Friday after 20:00. *)
Definition rule_next_working (w : Z) (fr : all_response_row) : Prop :=
  w = 0 \/ (w = 1 /\ dow fr = 5 /\ clock 20 < time_req fr).

(** [h] hundredths is [u] microseconds in hours, rounded to two decimals:
    [h / 100] is a nearest multiple of 0.01 to [u / (3600 * 10^6)], and of
    two nearest ones the one away from zero. *)
Definition rounded_hours (u h : Z) : Prop :=
  2 * Z.abs (h * USECS_PER_CENTIHOUR - u) <= USECS_PER_CENTIHOUR /\
  (2 * Z.abs (h * USECS_PER_CENTIHOUR - u) = USECS_PER_CENTIHOUR ->
   Z.abs u < Z.abs (h * USECS_PER_CENTIHOUR)).

(** ** Sample data: the first days of January 2000 *)
Module Sample.

Definition Sat1 : date := 0.
Definition Sun2 : date := 1.
Definition Mon3 : date := 2.
Definition Tue4 : date := 3.
Definition Fri7 : date := 6.
Definition Sat8 : date := 7.
Definition Sun9 : date := 8.
Definition Mon10 : date := 9.

(** Monday to Friday are working days, the weekends are not. *)
Definition calendar : list dict_calendar_row :=
  [ mk_calendar 0 0; mk_calendar 1 0; mk_calendar 2 1; mk_calendar 3 1;
    mk_calendar 4 1; mk_calendar 5 1; mk_calendar 6 1; mk_calendar 7 0;
    mk_calendar 8 0; mk_calendar 9 1 ].

(** A calendar that ends on Sunday 2 January. *)
Definition short_calendar : list dict_calendar_row :=
  [ mk_calendar Sat1 0; mk_calendar Sun2 0 ].

(** A calendar without a row for Monday 3 January. *)
Definition gap_calendar : list dict_calendar_row :=
  [ mk_calendar Sun2 0; mk_calendar Tue4 1 ].

(** A calendar where Saturday 8 January is worked and Sunday is not. *)
Definition worked_saturday : list dict_calendar_row :=
  [ mk_calendar Fri7 1; mk_calendar Sat8 1; mk_calendar Sun9 0;
    mk_calendar Mon10 1 ].

(** A first response to a request made at [t]. *)
Definition request (c : Z) (t : timestamp) (response : option timestamp)
  : all_response_row :=
  mk_all_response c t response "manager" 1.

Definition sources : list string := ["source 1"; "source 2"]%string.

Definition event (c : Z) (t : timestamp) (response : option timestamp)
  : all_raw_row :=
  mk_all_raw c t response "manager" "response" "source 1".

Definition roster (c : Z) (t : timestamp) : dict_candidate_row :=
  mk_candidate c c t "source 1".

End Sample.

(** * Properties *)

(** ** SQL operators *)

Lemma in_left_join {A B : Type} (on : A -> B -> bool) l r a ob :
  In (a, ob) (Sql.left_join on l r) <->
  In a l /\
  match ob with
  | Some b => In b r /\ on a b = true
  | None => forall b, In b r -> on a b = false
  end.
Proof.
  unfold Sql.left_join. rewrite in_flat_map. split.
  - intros (a' & Ha' & Hin).
    destruct (filter (on a') r) as [|m ms] eqn:E.
    + destruct Hin as [Hin | []]. injection Hin as -> <-.
      split; [assumption|]. intros b Hb.
      destruct (on a b) eqn:Eb; [|reflexivity].
      assert (Hf : In b (filter (on a) r)) by (apply filter_In; auto).
      rewrite E in Hf. destruct Hf.
    + apply in_map_iff in Hin as (b & Heq & Hb).
      injection Heq as -> <-. rewrite <- E in Hb.
      apply filter_In in Hb. auto.
  - intros (Ha & H). exists a. split; [assumption|].
    destruct ob as [b|].
    + destruct H as (Hb & Hon).
      assert (Hf : In b (filter (on a) r)) by (apply filter_In; auto).
      destruct (filter (on a) r) as [|m ms]; [destruct Hf|].
      apply in_map_iff. eauto.
    + destruct (filter (on a) r) as [|m ms] eqn:E; [left; reflexivity|].
      assert (Hf : In m (filter (on a) r)) by (rewrite E; left; reflexivity).
      apply filter_In in Hf as (Hm & Hon). rewrite (H _ Hm) in Hon. discriminate.
Qed.

Lemma fold_min_spec xs : forall x,
  (fold_left Z.min xs x = x \/ In (fold_left Z.min xs x) xs) /\
  fold_left Z.min xs x <= x /\
  (forall y, In y xs -> fold_left Z.min xs x <= y).
Proof.
  induction xs as [|a xs IH]; intros x; simpl.
  - repeat split; [left; reflexivity | lia | intros y []].
  - destruct (IH (Z.min x a)) as (Hin & Hle & Hall).
    repeat split.
    + destruct Hin as [Heq | Hin]; [|right; right; assumption].
      rewrite Heq. destruct (Z.min_spec x a) as [[_ ->] | [_ ->]]; auto.
    + lia.
    + intros y [<- | Hy]; [lia | auto].
Qed.

Lemma min_Some l m :
  Sql.min l = Some m -> In m l /\ (forall y, In y l -> m <= y).
Proof.
  destruct l as [|x xs]; simpl; [discriminate|].
  intros [= <-]. destruct (fold_min_spec xs x) as (Hin & Hle & Hall).
  split.
  - destruct Hin as [-> | Hin]; auto.
  - intros y [<- | Hy]; auto.
Qed.

Lemma min_None l : Sql.min l = None <-> l = [].
Proof. destruct l; simpl; split; intros; congruence. Qed.

(** ** The calendar subquery *)

Lemma in_later_working cal d m :
  In m (map date_calendar
          (filter (fun dc => (d <? date_calendar dc) && (is_working dc =? 1)) cal))
  <-> working_after cal d m.
Proof.
  unfold working_after. rewrite in_map_iff. split.
  - intros (e & <- & He). apply filter_In in He as (He & Hc).
    apply andb_true_iff in Hc as (H1 & H2).
    apply Z.ltb_lt in H1. apply Z.eqb_eq in H2. eauto.
  - intros (Hlt & e & He & <- & Hw). exists e. split; [reflexivity|].
    apply filter_In. split; [assumption|].
    apply andb_true_iff. split; [apply Z.ltb_lt | apply Z.eqb_eq]; assumption.
Qed.

Lemma next_working_date_Some cal d m :
  next_working_date cal d = Some m ->
  working_after cal d m /\ (forall m', working_after cal d m' -> m <= m').
Proof.
  unfold next_working_date. intros H. apply min_Some in H as (Hin & Hmin).
  split; [apply in_later_working; assumption|].
  intros m' Hm'. apply Hmin, in_later_working. assumption.
Qed.

Lemma next_working_date_None cal d :
  next_working_date cal d = None <-> calendar_exhausted cal d.
Proof.
  unfold next_working_date, calendar_exhausted. rewrite min_None. split.
  - intros H m Hm. apply in_later_working in Hm. rewrite H in Hm. destruct Hm.
  - intros H.
    destruct (map date_calendar _) as [|m ms] eqn:E; [reflexivity|].
    exfalso. apply (H m), in_later_working. rewrite E. left. reflexivity.
Qed.

Lemma next_working_date_total cal d m :
  working_after cal d m -> exists m0, next_working_date cal d = Some m0.
Proof.
  intros Hm. destruct (next_working_date cal d) as [m0|] eqn:E; [eauto|].
  exfalso. exact (proj1 (next_working_date_None cal d) E m Hm).
Qed.

(** ** The CASE conditions, read as propositions *)

Ltac conds :=
  cbn [Sql.eq3 option_map];
  change (1 =? 0) with false; change (1 =? 1) with true;
  repeat match goal with
         | |- context [?a =? ?b] =>
             let E := fresh "E" in
             destruct (Z.eqb_spec a b) as [E | E]
         | |- context [?a <? ?b] =>
             let E := fresh "E" in
             destruct (Z.ltb_spec a b) as [E | E]
         end;
  cbn [Sql.holds Sql.and3 Sql.or3 Sql.eq3 negb option_map].

Lemma holds_when_next_working w fr :
  Sql.holds (when_next_working (Some w) fr) = true <-> rule_next_working w fr.
Proof.
  unfold when_next_working, rule_next_working, Sql.eq3.
  conds; split; intros H; try discriminate; try reflexivity; lia.
Qed.

Lemma holds_on_miss fr :
  Sql.holds (when_next_working None fr) = false /\
  Sql.holds (when_before_opening None fr) = false /\
  Sql.holds (when_after_closing None fr) = false.
Proof.
  unfold when_next_working, when_before_opening, when_after_closing; simpl.
  repeat split; conds; reflexivity.
Qed.

Lemma time_req_range fr : 0 <= time_req fr < USECS_PER_DAY.
Proof. unfold time_req, to_time. apply Z.mod_pos_bound. reflexivity. Qed.

Lemma date_request_split fr :
  date_request fr = date_req fr * USECS_PER_DAY + time_req fr.
Proof.
  unfold date_req, time_req, to_date, to_time.
  rewrite (Z.div_mod (date_request fr) USECS_PER_DAY) at 1 by discriminate.
  lia.
Qed.

Ltac units :=
  unfold at_hour, date_plus, clock, hours, days, USECS_PER_HOUR,
    USECS_PER_DAY in *.

(** ** The join with the calendar *)

Lemma in_join_calendar cal frs fr dc :
  In (fr, dc) (join_calendar cal frs) <->
  In fr frs /\
  match dc with
  | Some e => In e cal /\ date_calendar e = date_req fr
  | None => forall e, In e cal -> date_calendar e <> date_req fr
  end.
Proof.
  unfold join_calendar. rewrite in_left_join.
  destruct dc as [e|].
  - rewrite Z.eqb_eq. intuition congruence.
  - split; intros (Hfr & H); (split; [assumption|]); intros e He.
    + specialize (H e He). apply Z.eqb_neq in H. congruence.
    + apply Z.eqb_neq. specialize (H e He). congruence.
Qed.

Lemma in_shift_request cal frs row :
  In row (shift_request cal frs) <->
  exists fr dc, In (fr, dc) (join_calendar cal frs) /\ row = shift_row cal (fr, dc).
Proof.
  unfold shift_request. rewrite in_map_iff. split.
  - intros ([fr dc] & <- & Hin). eauto.
  - intros (fr & dc & Hin & ->). eauto.
Qed.

Lemma shift_row_in cal frs fr dc :
  In (fr, dc) (join_calendar cal frs) ->
  In (shift_row cal (fr, dc)) (shift_request cal frs).
Proof. intros H. apply in_shift_request. eauto. Qed.

(** ** Rule 1: C1 *)

(** C1. A request whose calendar date is non-working, or a working Friday
    with time of day after 20:00, is registered at 09:00 on the earliest
    working calendar date strictly after the request date, whenever the
    calendar holds such a date: that date is later than the request date, is
    marked working, and no earlier one is. The row is part of
    [shift_request]. *)
Theorem registration_next_working_date cal frs fr dc :
  In (fr, Some dc) (join_calendar cal frs) ->
  rule_next_working (is_working dc) fr ->
  (exists m, working_after cal (date_req fr) m) ->
  exists d,
    sr_date_registration (shift_row cal (fr, Some dc)) = Some (at_hour d 9) /\
    working_after cal (date_req fr) d /\
    (forall m, working_after cal (date_req fr) m -> d <= m) /\
    In (shift_row cal (fr, Some dc)) (shift_request cal frs).
Proof.
  intros Hj Hrule (m & Hm).
  destruct (next_working_date_total _ _ _ Hm) as (d & Hd).
  exists d. destruct (next_working_date_Some _ _ _ Hd) as (Hw & Hmin).
  repeat split; try assumption; try (apply Hw).
  - cbn [shift_row sr_date_registration]. unfold date_registration.
    cbn [option_map].
    rewrite (proj2 (holds_when_next_working _ _) Hrule), Hd. reflexivity.
  - apply shift_row_in. assumption.
Qed.

Lemma registration_next_working_date_witness :
  exists d,
    sr_date_registration
      (shift_row Sample.calendar
         (Sample.request 1 (at_time Sample.Fri7 21 30) None,
          Some (mk_calendar Sample.Fri7 1))) = Some (at_hour d 9) /\
    working_after Sample.calendar Sample.Fri7 d /\
    (forall m, working_after Sample.calendar Sample.Fri7 m -> d <= m) /\
    In (shift_row Sample.calendar
          (Sample.request 1 (at_time Sample.Fri7 21 30) None,
           Some (mk_calendar Sample.Fri7 1)))
       (shift_request Sample.calendar
          [Sample.request 1 (at_time Sample.Fri7 21 30) None]).
Proof.
  apply (registration_next_working_date Sample.calendar
           [Sample.request 1 (at_time Sample.Fri7 21 30) None]
           (Sample.request 1 (at_time Sample.Fri7 21 30) None)
           (mk_calendar Sample.Fri7 1)).
  - vm_compute. left. reflexivity.
  - right. vm_compute. repeat split; reflexivity.
  - exists Sample.Mon10. split; [reflexivity|].
    exists (mk_calendar Sample.Mon10 1). vm_compute. intuition.
Defined.

(** ** Calendar lookup miss: C2 *)

(** C2, as the view computes it. A request whose calendar date has no row
    in the calendar is joined with NULLs, no WHEN condition is true, and the
    registration timestamp is the request timestamp unchanged. *)
Theorem registration_on_calendar_miss cal frs fr :
  In fr frs ->
  (forall e, In e cal -> date_calendar e <> date_req fr) ->
  In (fr, None) (join_calendar cal frs) /\
  sr_date_registration (shift_row cal (fr, None)) = Some (date_request fr) /\
  In (shift_row cal (fr, None)) (shift_request cal frs).
Proof.
  intros Hfr Hmiss.
  assert (Hj : In (fr, None) (join_calendar cal frs))
    by (apply in_join_calendar; auto).
  repeat split; [assumption | | apply shift_row_in; assumption].
  cbn [shift_row sr_date_registration]. unfold date_registration.
  cbn [option_map].
  destruct (holds_on_miss fr) as (-> & -> & ->). reflexivity.
Qed.

Lemma registration_on_calendar_miss_witness :
  In (Sample.request 1 (at_time Sample.Mon3 12 0) None, None)
     (join_calendar Sample.gap_calendar
        [Sample.request 1 (at_time Sample.Mon3 12 0) None]) /\
  sr_date_registration
    (shift_row Sample.gap_calendar
       (Sample.request 1 (at_time Sample.Mon3 12 0) None, None))
  = Some (at_time Sample.Mon3 12 0) /\
  In (shift_row Sample.gap_calendar
        (Sample.request 1 (at_time Sample.Mon3 12 0) None, None))
     (shift_request Sample.gap_calendar
        [Sample.request 1 (at_time Sample.Mon3 12 0) None]).
Proof.
  apply (registration_on_calendar_miss Sample.gap_calendar
           [Sample.request 1 (at_time Sample.Mon3 12 0) None]
           (Sample.request 1 (at_time Sample.Mon3 12 0) None)).
  - left. reflexivity.
  - intros e [<- | [<- | []]]; vm_compute; discriminate.
Defined.

(** C2 fails as stated: Monday 3 January 12:00 has no calendar row, Tuesday
    4 January is the next working date, and the registration timestamp is
    the request timestamp, not Tuesday 09:00. *)
Lemma calendar_miss_not_rule_1 :
  (forall e, In e Sample.gap_calendar -> date_calendar e <> Sample.Mon3) /\
  next_working_date Sample.gap_calendar Sample.Mon3 = Some Sample.Tue4 /\
  map sr_date_registration
    (shift_request Sample.gap_calendar
       [Sample.request 1 (at_time Sample.Mon3 12 0) None])
  = [Some (at_time Sample.Mon3 12 0)] /\
  at_time Sample.Mon3 12 0 <> at_hour Sample.Tue4 9.
Proof.
  repeat split; try reflexivity.
  - intros e [<- | [<- | []]]; vm_compute; discriminate.
  - vm_compute. discriminate.
Qed.

(** ** Calendar exhausted: C3 *)

(** C3, as the view computes it. When rule 1 applies and the calendar holds
    no working date after the request date, the subquery's MIN is NULL: the
    row is emitted all the same, with a NULL registration timestamp and a
    NULL [interval_hours]; nothing is signalled. *)
Theorem registration_null_when_exhausted cal frs fr dc :
  In (fr, Some dc) (join_calendar cal frs) ->
  rule_next_working (is_working dc) fr ->
  calendar_exhausted cal (date_req fr) ->
  In (shift_row cal (fr, Some dc)) (shift_request cal frs) /\
  sr_date_registration (shift_row cal (fr, Some dc)) = None /\
  vrf_interval_hours (with_interval (shift_row cal (fr, Some dc))) = None.
Proof.
  intros Hj Hrule Hex.
  assert (Hreg : sr_date_registration (shift_row cal (fr, Some dc)) = None).
  { cbn [shift_row sr_date_registration]. unfold date_registration.
    cbn [option_map].
    rewrite (proj2 (holds_when_next_working _ _) Hrule).
    rewrite (proj2 (next_working_date_None _ _) Hex). reflexivity. }
  repeat split; [apply shift_row_in; assumption | assumption |].
  unfold with_interval. cbn [vrf_interval_hours]. rewrite Hreg.
  unfold interval_hours. destruct (sr_date_response _); reflexivity.
Qed.

Lemma registration_null_when_exhausted_witness :
  In (shift_row Sample.short_calendar
        (Sample.request 1 (at_time Sample.Sun2 10 0) None,
         Some (mk_calendar Sample.Sun2 0)))
     (shift_request Sample.short_calendar
        [Sample.request 1 (at_time Sample.Sun2 10 0) None]) /\
  sr_date_registration
    (shift_row Sample.short_calendar
       (Sample.request 1 (at_time Sample.Sun2 10 0) None,
        Some (mk_calendar Sample.Sun2 0))) = None /\
  vrf_interval_hours
    (with_interval
       (shift_row Sample.short_calendar
          (Sample.request 1 (at_time Sample.Sun2 10 0) None,
           Some (mk_calendar Sample.Sun2 0)))) = None.
Proof.
  apply (registration_null_when_exhausted Sample.short_calendar
           [Sample.request 1 (at_time Sample.Sun2 10 0) None]).
  - vm_compute. left. reflexivity.
  - left. reflexivity.
  - intros m (Hlt & e & [<- | [<- | []]] & <- & Hw); vm_compute in Hw;
      discriminate.
Defined.

(** C3 fails as stated: a request on Sunday 2 January with a calendar that
    ends that day falls under rule 1, no later working date exists, and
    [shift_request] returns its row with a NULL registration timestamp. *)
Lemma exhausted_calendar_yields_null :
  rule_next_working 0 (Sample.request 1 (at_time Sample.Sun2 10 0) None) /\
  calendar_exhausted Sample.short_calendar Sample.Sun2 /\
  shift_request Sample.short_calendar
    [Sample.request 1 (at_time Sample.Sun2 10 0) None]
  = [mk_shift_request 1 "manager" (at_time Sample.Sun2 10 0) None None].
Proof.
  repeat split.
  - left. reflexivity.
  - intros m (Hlt & e & [<- | [<- | []]] & <- & Hw); vm_compute in Hw;
      discriminate.
Qed.

(** ** Registration is not before the request: C4 *)

(** C4, as the view computes it. In every row of [shift_request] the
    registration timestamp is either NULL, and then no working date lies
    after the request date, or it is not before the request timestamp. *)
Theorem registration_not_before_request cal frs row :
  In row (shift_request cal frs) ->
  (forall r, sr_date_registration row = Some r -> sr_date_request row <= r) /\
  (sr_date_registration row = None ->
   calendar_exhausted cal (to_date (sr_date_request row))).
Proof.
  intros Hrow. apply in_shift_request in Hrow as (fr & dc & _ & ->).
  cbn [shift_row sr_date_registration sr_date_request].
  pose proof (time_req_range fr) as Ht.
  pose proof (date_request_split fr) as Hs.
  unfold date_registration.
  destruct (Sql.holds (when_next_working _ fr)) eqn:E1.
  - destruct (next_working_date cal (date_req fr)) as [d|] eqn:Ed;
      cbn [option_map]; split; try discriminate.
    + intros r [= <-].
      apply next_working_date_Some in Ed as ((Hlt & _) & _).
      units. lia.
    + intros _. apply next_working_date_None. exact Ed.
  - destruct (Sql.holds (when_before_opening _ fr)) eqn:E2.
    + split; [|discriminate]. intros r [= <-].
      assert (Hlt : time_req fr < clock 9).
      { revert E2. unfold when_before_opening.
        destruct (Sql.eq3 _ _) as [[|]|]; conds; intros; try discriminate.
        assumption. }
      units. lia.
    + destruct (Sql.holds (when_after_closing _ fr)); (split; [|discriminate]);
        intros r [= <-]; units; lia.
Qed.

Lemma registration_not_before_request_witness :
  (forall r,
      sr_date_registration
        (mk_shift_request 1 "manager" (at_time Sample.Tue4 8 10) None
           (Some (at_hour Sample.Tue4 9))) = Some r ->
      at_time Sample.Tue4 8 10 <= r) /\
  (sr_date_registration
     (mk_shift_request 1 "manager" (at_time Sample.Tue4 8 10) None
        (Some (at_hour Sample.Tue4 9))) = None ->
   calendar_exhausted Sample.calendar Sample.Tue4).
Proof.
  apply (registration_not_before_request Sample.calendar
           [Sample.request 1 (at_time Sample.Tue4 8 10) None]).
  vm_compute. left. reflexivity.
Defined.

(** C4 fails as stated: with the calendar exhausted the registration
    timestamp of the emitted row is NULL, and [date_registration >=
    date_request] is unknown, not true. *)
Lemma null_registration_not_ge_request :
  exists row,
    In row (shift_request Sample.short_calendar
              [Sample.request 7 (at_time Sample.Sat1 15 0)
                 (Some (at_time Sample.Sat1 15 20))]) /\
    sr_date_registration row = None /\
    Sql.ge3 (sr_date_registration row) (Some (sr_date_request row)) = None /\
    ~ (exists r, sr_date_registration row = Some r /\ sr_date_request row <= r).
Proof.
  eexists. split; [left; reflexivity|]. vm_compute.
  repeat split. intros (r & Hr & _). discriminate.
Qed.

(** ** Business hours: C5 *)

(** C5. A request on a working calendar date with time of day in
    [09:00, 20:00], both ends included, keeps its timestamp as
    registration timestamp. *)
Theorem registration_within_hours cal frs fr dc :
  In (fr, Some dc) (join_calendar cal frs) ->
  is_working dc = 1 ->
  clock 9 <= time_req fr <= clock 20 ->
  sr_date_registration (shift_row cal (fr, Some dc)) = Some (date_request fr) /\
  In (shift_row cal (fr, Some dc)) (shift_request cal frs).
Proof.
  intros Hj Hw Ht. split; [|apply shift_row_in; assumption].
  cbn [shift_row sr_date_registration]. unfold date_registration.
  cbn [option_map]. rewrite Hw.
  unfold when_next_working, when_before_opening, when_after_closing.
  conds; try reflexivity; lia.
Qed.

Lemma registration_within_hours_witness :
  (sr_date_registration
     (shift_row Sample.calendar
        (Sample.request 1 (at_hour Sample.Fri7 20) None,
         Some (mk_calendar Sample.Fri7 1)))
   = Some (at_hour Sample.Fri7 20) /\
   In (shift_row Sample.calendar
         (Sample.request 1 (at_hour Sample.Fri7 20) None,
          Some (mk_calendar Sample.Fri7 1)))
      (shift_request Sample.calendar
         [Sample.request 1 (at_hour Sample.Fri7 20) None;
          Sample.request 2 (at_hour Sample.Tue4 9) None])) /\
  (sr_date_registration
     (shift_row Sample.calendar
        (Sample.request 2 (at_hour Sample.Tue4 9) None,
         Some (mk_calendar Sample.Tue4 1)))
   = Some (at_hour Sample.Tue4 9) /\
   In (shift_row Sample.calendar
         (Sample.request 2 (at_hour Sample.Tue4 9) None,
          Some (mk_calendar Sample.Tue4 1)))
      (shift_request Sample.calendar
         [Sample.request 1 (at_hour Sample.Fri7 20) None;
          Sample.request 2 (at_hour Sample.Tue4 9) None])).
Proof.
  split.
  - apply (registration_within_hours Sample.calendar
             [Sample.request 1 (at_hour Sample.Fri7 20) None;
              Sample.request 2 (at_hour Sample.Tue4 9) None]
             (Sample.request 1 (at_hour Sample.Fri7 20) None)
             (mk_calendar Sample.Fri7 1)).
    + vm_compute. left. reflexivity.
    + reflexivity.
    + vm_compute. split; discriminate.
  - apply (registration_within_hours Sample.calendar
             [Sample.request 1 (at_hour Sample.Fri7 20) None;
              Sample.request 2 (at_hour Sample.Tue4 9) None]
             (Sample.request 2 (at_hour Sample.Tue4 9) None)
             (mk_calendar Sample.Tue4 1)).
    + vm_compute. right. left. reflexivity.
    + reflexivity.
    + vm_compute. split; discriminate.
Defined.

(** ** Evening of a working day other than Friday: C6 *)

(** C6. A request on a working calendar date that is not a Friday, with
    time of day after 20:00, is registered at 09:00 on the request date
    plus one calendar day, whatever the calendar says of that next day. *)
Theorem registration_next_calendar_day cal frs fr dc :
  In (fr, Some dc) (join_calendar cal frs) ->
  is_working dc = 1 ->
  dow fr <> 5 ->
  clock 20 < time_req fr ->
  sr_date_registration (shift_row cal (fr, Some dc))
  = Some (at_hour (date_req fr + 1) 9) /\
  In (shift_row cal (fr, Some dc)) (shift_request cal frs).
Proof.
  intros Hj Hw Hd Ht. split; [|apply shift_row_in; assumption].
  cbn [shift_row sr_date_registration]. unfold date_registration.
  cbn [option_map]. rewrite Hw.
  unfold when_next_working, when_before_opening, when_after_closing.
  conds; try (units; lia).
  f_equal. units. lia.
Qed.

(** On a worked Saturday at 21:00 the registration falls on Sunday 09:00,
    a non-working date. *)
Lemma registration_next_calendar_day_witness :
  (sr_date_registration
     (shift_row Sample.worked_saturday
        (Sample.request 1 (at_hour Sample.Sat8 21) None,
         Some (mk_calendar Sample.Sat8 1)))
   = Some (at_hour Sample.Sun9 9) /\
   In (shift_row Sample.worked_saturday
         (Sample.request 1 (at_hour Sample.Sat8 21) None,
          Some (mk_calendar Sample.Sat8 1)))
      (shift_request Sample.worked_saturday
         [Sample.request 1 (at_hour Sample.Sat8 21) None])) /\
  In (mk_calendar Sample.Sun9 0) Sample.worked_saturday.
Proof.
  split.
  - apply (registration_next_calendar_day Sample.worked_saturday
             [Sample.request 1 (at_hour Sample.Sat8 21) None]
             (Sample.request 1 (at_hour Sample.Sat8 21) None)
             (mk_calendar Sample.Sat8 1)).
    + vm_compute. left. reflexivity.
    + reflexivity.
    + vm_compute. discriminate.
    + reflexivity.
  - vm_compute. intuition.
Defined.

(** ** Elapsed hours: C7 *)

Lemma round_div_nearest n d :
  0 < d ->
  2 * Z.abs (Sql.round_div n d * d - n) <= d /\
  (2 * Z.abs (Sql.round_div n d * d - n) = d ->
   Z.abs n < Z.abs (Sql.round_div n d * d)).
Proof.
  intros Hd. unfold Sql.round_div.
  pose proof (Z.div_mod (2 * Z.abs n + d) (2 * d) ltac:(lia)) as Hq.
  pose proof (Z.mod_pos_bound (2 * Z.abs n + d) (2 * d) ltac:(lia)) as Hr.
  set (q := (2 * Z.abs n + d) / (2 * d)) in *.
  set (r := (2 * Z.abs n + d) mod (2 * d)) in *.
  assert (Hq0 : 0 <= q) by (apply Z.div_pos; lia).
  destruct (Z.lt_trichotomy n 0) as [Hn | [Hn | Hn]].
  - rewrite (Z.sgn_neg n Hn).
    replace (-1 * q * d - n) with (- (q * d - Z.abs n)) by lia.
    replace (-1 * q * d) with (- (q * d)) by lia.
    rewrite !Z.abs_opp. split; [lia|]. intros H. lia.
  - subst n. simpl Z.sgn. simpl Z.abs in *.
    assert (q = 0) by nia. lia.
  - rewrite (Z.sgn_pos n Hn).
    replace (1 * q * d - n) with (q * d - Z.abs n) by lia.
    replace (1 * q * d) with (q * d) by lia.
    split; [lia|]. intros H. lia.
Qed.

Lemma rounded_hours_round_div u :
  rounded_hours u (Sql.round_div u USECS_PER_CENTIHOUR).
Proof. apply round_div_nearest. reflexivity. Qed.

Lemma rounded_hours_unique u h1 h2 :
  rounded_hours u h1 -> rounded_hours u h2 -> h1 = h2.
Proof. unfold rounded_hours, USECS_PER_CENTIHOUR. lia. Qed.

(** The division may round its quotient to [s] decimals before ROUND sees
    it: from ten decimals on this changes nothing, since a difference in
    whole microseconds is either on a tie of the second decimal or at
    least 1/(3600 * 10^6) hours away from it. *)
Lemma round_hours_via_exact s u :
  10 <= s -> round_hours_via s u = Sql.round_div u USECS_PER_CENTIHOUR.
Proof.
  intros Hs. apply rounded_hours_unique with u; [|apply rounded_hours_round_div].
  unfold round_hours_via.
  set (j := 10 ^ (s - 10)).
  assert (Hj : 1 <= j)
    by (unfold j; pose proof (Z.pow_pos_nonneg 10 (s - 10)); lia).
  assert (E1 : 10 ^ s = 10000000000 * j).
  { unfold j. change 10000000000 with (10 ^ 10).
    rewrite <- Z.pow_add_r by lia. f_equal. lia. }
  assert (E2 : 10 ^ (s - 2) = 100000000 * j).
  { unfold j. change 100000000 with (10 ^ 8).
    rewrite <- Z.pow_add_r by lia. f_equal. lia. }
  rewrite E1, E2. clearbody j. clear E1 E2 Hs s.
  pose proof (round_div_nearest (u * (10000000000 * j)) (3600 * 1000000)
                ltac:(lia)) as (A & _).
  set (q := Sql.round_div (u * (10000000000 * j)) (3600 * 1000000)) in *.
  pose proof (round_div_nearest q (100000000 * j) ltac:(lia)) as (B & B').
  set (h := Sql.round_div q (100000000 * j)) in *.
  clearbody q h.
  unfold rounded_hours, USECS_PER_CENTIHOUR.
  assert (A' : 2 * Z.abs (9 * q - 25 * (u * j)) <= 9) by lia.
  clear A.
  set (uj := u * j) in *.
  assert (Hm : 25 * (j * (h * 36000000 - u))
               = 9 * (h * (100000000 * j) - q) + (9 * q - 25 * uj))
    by (unfold uj; ring).
  set (m := h * 36000000 - u) in *.
  set (f := h * (100000000 * j) - q) in *.
  set (e := 9 * q - 25 * uj) in *.
  split.
  - nia.
  - intros T.
    assert (Hm' : m = 18000000 \/ m = -18000000) by lia.
    assert (He : e = 0) by (destruct Hm' as [Hm' | Hm']; rewrite Hm' in Hm; lia).
    assert (Hf : 2 * Z.abs f = 100000000 * j)
      by (destruct Hm' as [Hm' | Hm']; rewrite Hm' in Hm; lia).
    specialize (B' Hf).
    assert (Hq : 9 * q = 25 * (u * j)) by (unfold e, uj in He; lia).
    assert (Hlt : 25 * (Z.abs u * j) < 9 * (100000000 * (Z.abs h * j))).
    { replace (Z.abs u * j) with (Z.abs (u * j))
        by (rewrite Z.abs_mul; f_equal; lia).
      replace (Z.abs h * j) with (Z.abs (h * j))
        by (rewrite Z.abs_mul; f_equal; lia).
      replace (h * (100000000 * j)) with (100000000 * (h * j)) in B' by ring.
      lia. }
    assert (Hu : Z.abs u < 36000000 * Z.abs h).
    { apply (Z.mul_lt_mono_pos_r j); [lia|].
      clear - Hlt. lia. }
    lia.
Qed.

Lemma in_v_response_first sl raw cal v :
  In v (v_response_first sl raw cal) <->
  exists s, In s (shift_request cal (first_response sl raw)) /\ v = with_interval s.
Proof.
  unfold v_response_first. rewrite in_map_iff. split.
  - intros (s & <- & Hs). eauto.
  - intros (s & Hs & ->). eauto.
Qed.

Lemma nbase_weight_fuel_spec fuel : forall n,
  1 <= n < 2 ^ (Z.of_nat fuel + 1) ->
  0 <= nbase_weight_fuel fuel n /\
  10000 ^ nbase_weight_fuel fuel n <= n
  < 10000 ^ (nbase_weight_fuel fuel n + 1).
Proof.
  induction fuel as [|fuel IH]; intros n Hn.
  - simpl in *. lia.
  - cbn [nbase_weight_fuel].
    destruct (Z.ltb_spec n 10000) as [Hlt | Hge]; [simpl; lia|].
    assert (Hpow : 2 ^ (Z.of_nat (S fuel) + 1) = 2 * 2 ^ (Z.of_nat fuel + 1)).
    { rewrite <- Z.pow_succ_r by lia. f_equal. lia. }
    assert (Hpos : 0 < 2 ^ (Z.of_nat fuel + 1)) by (apply Z.pow_pos_nonneg; lia).
    pose proof (Z.div_mod n 10000 ltac:(lia)) as Hdm.
    pose proof (Z.mod_pos_bound n 10000 ltac:(lia)) as Hmod.
    destruct (IH (n / 10000) ltac:(lia)) as (Hk & Hlo & Hhi).
    set (k := nbase_weight_fuel fuel (n / 10000)) in *.
    replace (1 + k + 1) with (Z.succ (k + 1)) by lia.
    replace (1 + k) with (Z.succ k) by lia.
    rewrite !Z.pow_succ_r by lia. lia.
Qed.

Lemma nbase_weight_spec n :
  1 <= n ->
  0 <= nbase_weight n /\
  10000 ^ nbase_weight n <= n < 10000 ^ (nbase_weight n + 1).
Proof.
  intros Hn. apply nbase_weight_fuel_spec.
  rewrite Z2Nat.id by apply Z.log2_nonneg.
  pose proof (Z.log2_spec n ltac:(lia)) as Hl.
  replace (Z.log2 n + 1) with (Z.succ (Z.log2 n)) by lia. lia.
Qed.

Lemma epoch_div_scale_range u : 6 <= epoch_div_scale u <= 1000.
Proof.
  unfold epoch_div_scale. cbv zeta.
  destruct (_ <=? _); lia.
Qed.

(** Below 3601 * 10^8 seconds the quotient keeps twelve decimals or more. *)
Lemma epoch_div_scale_small u :
  Z.abs u < 3601 * 100000000 * 1000000 -> 12 <= epoch_div_scale u.
Proof.
  intros Hu. unfold epoch_div_scale. cbv zeta.
  destruct (Z.eqb_spec (100 * Z.abs u) 0) as [H0 | H0].
  - simpl. lia.
  - destruct (nbase_weight_spec (100 * Z.abs u) ltac:(lia)) as (Hk & Hlo & _).
    set (n := 100 * Z.abs u) in *. set (k := nbase_weight n) in *.
    assert (Hk4 : k <= 4).
    { destruct (Z.le_gt_cases k 4) as [H | H]; [assumption|]. exfalso.
      assert (10000 ^ 5 <= 10000 ^ k) by (apply Z.pow_le_mono_r; lia).
      change (10000 ^ 5) with 100000000000000000000 in *. lia. }
    destruct (Z.leb_spec (n / 10000 ^ k) 3600) as [Hfd | Hfd]; [lia|].
    assert (k <> 4); [|lia].
    intros ->. change (10000 ^ 4) with 10000000000000000 in *.
    assert (n / 10000000000000000 < 3601)
      by (apply Z.div_lt_upper_bound; lia).
    lia.
Qed.

(** C7, as the view computes it. In every row of [v_response_first],
    [interval_hours] is NULL when the response timestamp or the
    registration timestamp is NULL; when both are present and less than
    3601 * 10^8 seconds apart it is their difference in hours rounded to
    two decimals, and no other value is such a rounding. *)
Theorem interval_hours_rounded sl raw cal v :
  In v (v_response_first sl raw cal) ->
  (vrf_date_response v = None -> vrf_interval_hours v = None) /\
  (vrf_date_registration v = None -> vrf_interval_hours v = None) /\
  (forall rs rg,
      vrf_date_response v = Some rs ->
      vrf_date_registration v = Some rg ->
      Z.abs (rs - rg) < 3601 * 100000000 * 1000000 ->
      exists h,
        vrf_interval_hours v = Some h /\
        rounded_hours (rs - rg) h /\
        (forall h', rounded_hours (rs - rg) h' -> h' = h)).
Proof.
  intros Hv. apply in_v_response_first in Hv as (s & _ & ->).
  unfold with_interval.
  cbn [vrf_date_response vrf_date_registration vrf_interval_hours].
  split; [|split].
  - intros ->. reflexivity.
  - intros ->. destruct (sr_date_response s); reflexivity.
  - intros rs rg -> -> Hlt. cbn [interval_hours].
    eexists. split; [reflexivity|].
    pose proof (epoch_div_scale_small _ Hlt) as Hs.
    rewrite round_hours_via_exact by lia.
    pose proof (rounded_hours_round_div (rs - rg)) as Hr.
    split; [exact Hr|].
    intros h' Hh'. exact (rounded_hours_unique _ _ _ Hh' Hr).
Qed.

(** Request on Tuesday 14:00, response on Tuesday 16:30: 2.50 hours. *)
Lemma interval_hours_rounded_witness :
  (vrf_date_response
     (mk_vrf 1 "manager" (at_hour Sample.Tue4 14)
        (Some (at_time Sample.Tue4 16 30)) (Some (at_hour Sample.Tue4 14))
        (Some 250)) = None ->
   Some 250 = None) /\
  (vrf_date_registration
     (mk_vrf 1 "manager" (at_hour Sample.Tue4 14)
        (Some (at_time Sample.Tue4 16 30)) (Some (at_hour Sample.Tue4 14))
        (Some 250)) = None ->
   Some 250 = None) /\
  (forall rs rg,
      Some (at_time Sample.Tue4 16 30) = Some rs ->
      Some (at_hour Sample.Tue4 14) = Some rg ->
      Z.abs (rs - rg) < 3601 * 100000000 * 1000000 ->
      exists h,
        Some 250 = Some h /\
        rounded_hours (rs - rg) h /\
        (forall h', rounded_hours (rs - rg) h' -> h' = h)).
Proof.
  apply (interval_hours_rounded Sample.sources
           [Sample.event 1 (at_hour Sample.Tue4 14)
              (Some (at_time Sample.Tue4 16 30))]
           Sample.calendar
           (mk_vrf 1 "manager" (at_hour Sample.Tue4 14)
              (Some (at_time Sample.Tue4 16 30))
              (Some (at_hour Sample.Tue4 14)) (Some 250))).
  vm_compute. left. reflexivity.
Defined.

(** C7 fails as stated: a response 370000000817.999999 seconds (some
    11,700 years) after a registration on Tuesday 14:00 is
    102777778.00499999972... hours later. The division keeps eight
    decimals, 102777778.00500000, and ROUND makes 102777778.01 of it,
    where the difference rounded to two decimals is 102777778.00. *)
Lemma interval_hours_rounds_twice :
  v_response_first Sample.sources
    [Sample.event 1 (at_hour Sample.Tue4 14)
       (Some (at_hour Sample.Tue4 14 + 370000000817999999))]
    Sample.calendar
  = [mk_vrf 1 "manager" (at_hour Sample.Tue4 14)
       (Some (at_hour Sample.Tue4 14 + 370000000817999999))
       (Some (at_hour Sample.Tue4 14)) (Some 10277777801)] /\
  rounded_hours 370000000817999999 10277777800 /\
  ~ rounded_hours 370000000817999999 10277777801.
Proof.
  split; [vm_compute; reflexivity|].
  unfold rounded_hours, USECS_PER_CENTIHOUR. lia.
Qed.

(** ** One first response per client: C8 *)

Lemma insert_by_response_perm r l :
  Permutation (insert_by_response r l) (r :: l).
Proof.
  induction l as [|x xs IH]; simpl; [reflexivity|].
  destruct (response_le _ _); [reflexivity|].
  rewrite IH. apply perm_swap.
Qed.

Lemma order_by_response_perm l : Permutation (order_by_response l) l.
Proof.
  induction l as [|x xs IH]; simpl; [reflexivity|].
  rewrite insert_by_response_perm. constructor. exact IH.
Qed.

Lemma row_number_rn n l x : In x (row_number n l) -> n <= rn x.
Proof.
  revert n. induction l as [|r rs IH]; intros n; simpl; [intros []|].
  intros [<- | Hx]; [simpl; lia|]. specialize (IH _ Hx). lia.
Qed.

Lemma row_number_first r rs :
  filter (fun x => rn x =? 1) (row_number 1 (r :: rs))
  = [mk_all_response (raw_id_client r) (raw_date_request r)
       (raw_date_response r) (raw_manager r) 1].
Proof.
  simpl. f_equal.
  assert (H : forall x, In x (row_number 2 rs) -> (rn x =? 1) = false).
  { intros x Hx. apply row_number_rn in Hx. apply Z.eqb_neq. lia. }
  revert H. generalize (row_number 2 rs). intros l H.
  induction l as [|y ys IH]; simpl; [reflexivity|].
  rewrite (H y (or_introl eq_refl)). apply IH. intros x Hx. apply H. right.
  assumption.
Qed.

Lemma in_clients q c :
  In c (clients q) <-> exists r, In r q /\ raw_id_client r = c.
Proof.
  unfold clients. rewrite nodup_In, in_map_iff.
  split; intros (r & H1 & H2); eauto.
Qed.

Lemma first_of_partition q c :
  In c (clients q) ->
  exists r rs,
    order_by_response (partition_of c q) = r :: rs /\
    In r (partition_of c q) /\
    filter (fun x => rn x =? 1)
      (row_number 1 (order_by_response (partition_of c q)))
    = [mk_all_response (raw_id_client r) (raw_date_request r)
         (raw_date_response r) (raw_manager r) 1].
Proof.
  intros Hc. apply in_clients in Hc as (r & Hr & Hid).
  assert (Hp : In r (partition_of c q)).
  { apply filter_In. split; [assumption|]. apply Z.eqb_eq. assumption. }
  pose proof (order_by_response_perm (partition_of c q)) as Hperm.
  destruct (order_by_response (partition_of c q)) as [|y ys] eqn:E.
  - apply Permutation_nil in Hperm. rewrite Hperm in Hp. destruct Hp.
  - exists y, ys. repeat split; [|apply row_number_first].
    apply (Permutation_in y Hperm). left. reflexivity.
Qed.

Lemma filter_flat_map {A B : Type} (f : B -> bool) (g : A -> list B) l :
  filter f (flat_map g l) = flat_map (fun a => filter f (g a)) l.
Proof.
  induction l as [|a l IH]; simpl; [reflexivity|].
  rewrite filter_app, IH. reflexivity.
Qed.

Lemma first_response_flat_map sl raw :
  first_response sl raw
  = flat_map
      (fun c => filter (fun x => rn x =? 1)
                  (row_number 1
                     (order_by_response
                        (partition_of c (filter (is_response sl) raw)))))
      (clients (filter (is_response sl) raw)).
Proof. unfold first_response, all_response. apply filter_flat_map. Qed.

Lemma count_singletons (g : Z -> list all_response_row) c cs :
  (forall c', In c' cs -> exists x, g c' = [x] /\ id_client x = c') ->
  List.length (filter (fun x => id_client x =? c) (flat_map g cs))
  = count_occ Z.eq_dec cs c.
Proof.
  induction cs as [|c' cs IH]; intros H; simpl; [reflexivity|].
  destruct (H c' (or_introl eq_refl)) as (x & Hx & Hid).
  specialize (IH (fun c0 H0 => H c0 (or_intror H0))).
  rewrite Hx. simpl. rewrite Hid.
  destruct (Z.eq_dec c' c) as [-> | Hne].
  - rewrite Z.eqb_refl. simpl. rewrite IH. reflexivity.
  - apply Z.eqb_neq in Hne. rewrite Hne. exact IH.
Qed.

(** An event of client [c] qualifies: its action is a response and its
    source is in the allow-list. *)
Lemma has_response_spec sl raw c :
  existsb (fun r => is_response sl r && (raw_id_client r =? c)) raw = true <->
  In c (clients (filter (is_response sl) raw)).
Proof.
  rewrite existsb_exists, in_clients. split.
  - intros (r & Hr & H). apply andb_true_iff in H as (H1 & H2).
    apply Z.eqb_eq in H2. exists r. split; [|assumption].
    apply filter_In. auto.
  - intros (r & Hr & Hid). apply filter_In in Hr as (Hr & Hq).
    exists r. split; [assumption|]. rewrite Hq, Hid, Z.eqb_refl. reflexivity.
Qed.

(** C8. [first_response] holds exactly one row for a client with at least
    one qualifying event (action "response", source in the allow-list),
    whatever ties there are on [date_response], and no row for any other
    client. *)
Theorem first_response_one_per_client sl raw c :
  List.length (filter (fun x => id_client x =? c) (first_response sl raw))
  = if existsb (fun r => is_response sl r && (raw_id_client r =? c)) raw
    then 1%nat else 0%nat.
Proof.
  rewrite first_response_flat_map.
  set (q := filter (is_response sl) raw).
  rewrite count_singletons.
  - destruct (existsb _ raw) eqn:E.
    + apply has_response_spec in E. fold q in E.
      apply NoDup_count_occ'; [apply NoDup_nodup | exact E].
    + apply count_occ_not_In. intros Hin.
      apply has_response_spec in Hin. congruence.
  - intros c' Hc'.
    destruct (first_of_partition q c' Hc') as (r & rs & _ & Hr & ->).
    eexists. split; [reflexivity|]. simpl.
    apply filter_In in Hr as (_ & Hr). apply Z.eqb_eq. exact Hr.
Qed.

(** *** The row kept is an earliest response of its client *)

Lemma response_le_total a b : response_le a b = false -> response_le b a = true.
Proof.
  destruct a, b; simpl; try discriminate; try reflexivity.
  rewrite Z.leb_gt, Z.leb_le. lia.
Qed.

Lemma response_le_trans a b c :
  response_le a b = true -> response_le b c = true -> response_le a c = true.
Proof.
  destruct a, b, c; simpl; try discriminate; try reflexivity.
  rewrite !Z.leb_le. lia.
Qed.

Lemma response_le_refl a : response_le a a = true.
Proof. destruct a; simpl; [apply Z.leb_refl | reflexivity]. Qed.

Lemma order_by_response_head l : forall y ys,
  order_by_response l = y :: ys ->
  forall r, In r l ->
    response_le (raw_date_response y) (raw_date_response r) = true.
Proof.
  induction l as [|x xs IH]; intros y ys E r Hr; [destruct Hr|].
  simpl in E.
  destruct (order_by_response xs) as [|z zs] eqn:Exs.
  - pose proof (order_by_response_perm xs) as Hp. rewrite Exs in Hp.
    apply Permutation_nil in Hp. subst xs.
    injection E as <- <-. destruct Hr as [<- | []]. apply response_le_refl.
  - simpl in E.
    destruct (response_le (raw_date_response x) (raw_date_response z)) eqn:Exz;
      injection E as <- <-; destruct Hr as [<- | Hr].
    + apply response_le_refl.
    + eapply response_le_trans; [exact Exz|]. eapply IH; eauto.
    + apply response_le_total. exact Exz.
    + eapply IH; eauto.
Qed.

(** X7. Every row of [first_response] is a qualifying event of its client,
    numbered 1, whose [date_response] is earliest among the client's
    qualifying events (NULL counting as latest). *)
Lemma first_response_earliest sl raw x :
  In x (first_response sl raw) ->
  (exists r, In r raw /\ is_response sl r = true /\
             x = mk_all_response (raw_id_client r) (raw_date_request r)
                   (raw_date_response r) (raw_manager r) 1) /\
  (forall r, In r raw -> is_response sl r = true ->
             raw_id_client r = id_client x ->
             response_le (date_response x) (raw_date_response r) = true).
Proof.
  rewrite first_response_flat_map, in_flat_map.
  intros (c & Hc & Hx).
  destruct (first_of_partition _ c Hc) as (y & ys & Ey & Hy & Hf).
  rewrite Hf in Hx. destruct Hx as [<- | []].
  apply filter_In in Hy as (Hy & Hyc). apply Z.eqb_eq in Hyc.
  apply filter_In in Hy as (Hy & Hq).
  split; [eauto|].
  intros r Hr Hrq Hid. cbn [date_response id_client] in *.
  apply (order_by_response_head _ _ _ Ey).
  apply filter_In. split; [apply filter_In; auto|].
  apply Z.eqb_eq. congruence.
Qed.

(** *** Rows of the view per client *)

Lemma left_join_at_most_one {A B : Type} (on : A -> B -> bool) l r :
  (forall a, In a l -> (List.length (filter (on a) r) <= 1)%nat) ->
  map fst (Sql.left_join on l r) = l.
Proof.
  unfold Sql.left_join.
  induction l as [|a l IH]; intros H; [reflexivity|].
  cbn [flat_map]. rewrite map_app.
  rewrite IH by (intros; apply H; right; assumption).
  specialize (H a (or_introl eq_refl)).
  destruct (filter (on a) r) as [|m [|m' ms]]; simpl in *;
    [reflexivity | reflexivity | lia].
Qed.

Lemma calendar_at_most_one cal (d : date) :
  NoDup (map date_calendar cal) ->
  (List.length (filter (fun e => (d =? date_calendar e)%Z) cal) <= 1)%nat.
Proof.
  induction cal as [|e cal IH]; simpl; intros Hnd; [lia|].
  apply NoDup_cons_iff in Hnd as (Hnotin & Hnd).
  destruct (Z.eqb_spec d (date_calendar e)) as [-> | Hne]; [|auto].
  simpl.
  assert (Hnil : filter (fun e0 => date_calendar e =? date_calendar e0) cal = []).
  { destruct (filter _ cal) as [|e' l'] eqn:E; [reflexivity|].
    exfalso. apply Hnotin.
    assert (He' : In e' (filter (fun e0 => date_calendar e =? date_calendar e0) cal))
      by (rewrite E; left; reflexivity).
    apply filter_In in He' as (He' & Heq). apply Z.eqb_eq in Heq.
    rewrite Heq. apply in_map. assumption. }
  rewrite Hnil. simpl. lia.
Qed.

Lemma filter_map_length {A B : Type} (f : A -> B) (p : B -> bool) l :
  List.length (filter p (map f l)) = List.length (filter (fun a => p (f a)) l).
Proof.
  induction l as [|a l IH]; simpl; [reflexivity|].
  destruct (p (f a)); simpl; rewrite IH; reflexivity.
Qed.

(** With unique calendar dates the join adds and drops no row: the view
    has as many rows for a client as [first_response] has. *)
Lemma v_response_first_rows_per_client sl raw cal c :
  NoDup (map date_calendar cal) ->
  List.length (filter (fun v => vrf_id_client v =? c) (v_response_first sl raw cal))
  = List.length (filter (fun x => id_client x =? c) (first_response sl raw)).
Proof.
  intros Hnd.
  unfold v_response_first, shift_request. rewrite !filter_map_length.
  pose proof (left_join_at_most_one
                (fun fr dc => date_req fr =? date_calendar dc)
                (first_response sl raw) cal
                (fun a _ => calendar_at_most_one cal (date_req a) Hnd)) as Hj.
  fold (join_calendar cal (first_response sl raw)) in Hj.
  rewrite <- Hj at 2. rewrite filter_map_length.
  f_equal. apply filter_ext. intros [fr dc]. reflexivity.
Qed.

(** ** Refresh of the materialized table: C9 *)

(** Run as one transaction, a script that fails leaves the table it
    started from, whatever its statements. *)
Lemma one_transaction_atomic view script table :
  snd (run OneTransaction view script table) = false ->
  fst (run OneTransaction view script table) = table.
Proof.
  unfold run. destruct (run_statements view script table) as [t [|]];
    [discriminate | reflexivity].
Qed.

(** Committed statement by statement, a script that fails leaves the table
    as the statements before the failing one made it. *)
Lemma autocommit_keeps_prefix view s1 s2 table t :
  run Autocommit view s1 table = (t, true) ->
  run Autocommit view (s1 ++ s2) table = run Autocommit view s2 t.
Proof.
  unfold run. revert table.
  induction s1 as [|s s1 IH]; intros table; simpl.
  - intros [= ->]. reflexivity.
  - destruct (exec view s table) as [table'|]; [apply IH | discriminate].
Qed.

(** C9, as the refresh block runs. A refresh that succeeds leaves exactly
    the rows of the view. A refresh that fails leaves the published table
    unchanged when the block runs as one transaction, and leaves it empty
    when its statements are committed one by one, the TRUNCATE having taken
    effect before the reload failed. *)
Theorem refresh_outcome m view table :
  refresh m view table
  = match view, m with
    | Some rows, _ => (rows, true)
    | None, OneTransaction => (table, false)
    | None, Autocommit => ([], false)
    end.
Proof. destruct m, view; reflexivity. Qed.

(** C9 fails as stated: a published table of one row, refreshed statement
    by statement while the view cannot be read, is left empty and the
    refresh reports failure. *)
Lemma failed_refresh_empties_table :
  let published :=
    [mk_dash 1 "done" (at_hour Sample.Tue4 14) (Some (at_hour Sample.Tue4 14))
       (Some (at_time Sample.Tue4 16 30)) (Some 250) (Some "manager"%string)] in
  refresh Autocommit None published = ([], false) /\
  fst (refresh Autocommit None published) <> published.
Proof. split; [reflexivity | discriminate]. Qed.

(** ** Negative elapsed hours: C10 *)

Lemma round_div_negative n d : 0 < d -> d <= 2 * - n -> Sql.round_div n d < 0.
Proof.
  intros Hd Hn. unfold Sql.round_div.
  rewrite (Z.sgn_neg n) by lia.
  assert (1 <= (2 * Z.abs n + d) / (2 * d)).
  { apply Z.div_le_lower_bound; lia. }
  lia.
Qed.

Lemma round_div_below n d m :
  0 < d -> 1 <= m -> n <= - (m * d) -> Sql.round_div n d <= - m.
Proof.
  intros Hd Hm Hn. unfold Sql.round_div.
  assert (Hmd : 0 < m * d) by (apply Z.mul_pos_pos; lia).
  rewrite (Z.sgn_neg n) by lia.
  assert (m <= (2 * Z.abs n + d) / (2 * d)); [|lia].
  apply Z.div_le_lower_bound; lia.
Qed.

Lemma round_hours_via_negative s u :
  6 <= s -> u <= - 18000000 -> round_hours_via s u < 0.
Proof.
  intros Hs Hu. unfold round_hours_via.
  set (j := 10 ^ (s - 3)).
  assert (Hj : 0 < j) by (apply Z.pow_pos_nonneg; lia).
  assert (E1 : 10 ^ s = 1000 * j).
  { unfold j. change 1000 with (10 ^ 3).
    rewrite <- Z.pow_add_r by lia. f_equal. lia. }
  assert (E2 : 10 ^ (s - 2) = 10 * j).
  { unfold j. change 10 with (10 ^ 1) at 2.
    rewrite <- Z.pow_add_r by lia. f_equal. lia. }
  rewrite E1, E2.
  assert (Hq : Sql.round_div (u * (1000 * j)) (3600 * 1000000) <= - (5 * j)).
  { apply round_div_below; [lia | lia |].
    assert (u * j <= - 18000000 * j)
      by (apply Z.mul_le_mono_nonneg_r; lia).
    lia. }
  apply round_div_negative; lia.
Qed.

Lemma interval_hours_neg rs rg :
  rs + 18000000 <= rg ->
  exists h, interval_hours (Some rs) (Some rg) = Some h /\ h < 0.
Proof.
  intros Hlt. cbn [interval_hours]. eexists. split; [reflexivity|].
  apply round_hours_via_negative; [apply epoch_div_scale_range | lia].
Qed.

(** X14. Nothing in [v_response_first] keeps [interval_hours] from being
    negative: a response 18 seconds or more before the registration
    timestamp gives a negative value. *)
Lemma interval_hours_negative sl raw cal v rs rg :
  In v (v_response_first sl raw cal) ->
  vrf_date_response v = Some rs ->
  vrf_date_registration v = Some rg ->
  rs + 18000000 <= rg ->
  exists h, vrf_interval_hours v = Some h /\ h < 0.
Proof.
  intros Hv Hrs Hrg Hlt. apply in_v_response_first in Hv as (s & _ & ->).
  cbn [with_interval vrf_date_response vrf_date_registration
         vrf_interval_hours] in *.
  rewrite Hrs, Hrg. apply interval_hours_neg. exact Hlt.
Qed.

(** C10. Whenever the first response of a client was given on the calendar
    date of the request, not before the request, and that date is
    non-working with a working date after it, the registration timestamp
    is 09:00 on that later date, hence after the response, and
    [interval_hours] is negative. So it is for a request on Sunday 2
    January at 10:00 answered at 11:00: the registration is Monday 09:00,
    and [dash_client_service_view] returns the row with -22.00 hours. *)
Theorem negative_interval_hours_emitted :
  (forall cal frs fr dc rs,
      In (fr, Some dc) (join_calendar cal frs) ->
      is_working dc = 0 ->
      date_response fr = Some rs ->
      date_request fr <= rs ->
      to_date rs = date_req fr ->
      (exists m, working_after cal (date_req fr) m) ->
      exists d h,
        working_after cal (date_req fr) d /\
        In (with_interval (shift_row cal (fr, Some dc)))
           (map with_interval (shift_request cal frs)) /\
        vrf_date_response (with_interval (shift_row cal (fr, Some dc)))
        = Some rs /\
        vrf_date_registration (with_interval (shift_row cal (fr, Some dc)))
        = Some (at_hour d 9) /\
        rs < at_hour d 9 /\
        vrf_interval_hours (with_interval (shift_row cal (fr, Some dc)))
        = Some h /\
        h < 0) /\
  In (mk_calendar Sample.Sun2 0) Sample.calendar /\
  at_hour Sample.Sun2 10 <= at_hour Sample.Sun2 11 /\
  to_date (at_hour Sample.Sun2 10) = Sample.Sun2 /\
  to_date (at_hour Sample.Sun2 11) = Sample.Sun2 /\
  at_hour Sample.Sun2 11 < at_hour Sample.Mon3 9 /\
  dash_client_service_view Sample.sources
    [Sample.event 1 (at_hour Sample.Sun2 10) (Some (at_hour Sample.Sun2 11))]
    Sample.calendar
    [Sample.roster 1 (at_hour Sample.Sun2 10)]
  = [mk_dash 1 "done" (at_hour Sample.Sun2 10) (Some (at_hour Sample.Mon3 9))
       (Some (at_hour Sample.Sun2 11)) (Some (-2200)) (Some "manager"%string)].
Proof.
  split.
  - intros cal frs fr dc rs Hj Hw Hrs Hle Hday (m & Hm).
    destruct (next_working_date_total _ _ _ Hm) as (d & Hd).
    destruct (next_working_date_Some _ _ _ Hd) as (Hafter & _).
    assert (Hreg : date_registration cal fr (Some dc) = Some (at_hour d 9)).
    { unfold date_registration. cbn [option_map].
      rewrite (proj2 (holds_when_next_working _ _) (or_introl Hw)), Hd.
      reflexivity. }
    assert (Hlt : rs + hours 9 <= at_hour d 9).
    { destruct Hafter as (Hlater & _).
      pose proof (Z.div_mod rs USECS_PER_DAY ltac:(discriminate)) as Hsplit.
      pose proof (Z.mod_pos_bound rs USECS_PER_DAY ltac:(reflexivity)) as Hmod.
      unfold to_date in Hday. rewrite Hday in Hsplit.
      units. lia. }
    destruct (interval_hours_neg rs (at_hour d 9)) as (h & Hh & Hneg).
    { units. lia. }
    exists d, h.
    split; [exact Hafter|].
    split; [apply in_map, shift_row_in; assumption|].
    cbn [with_interval shift_row vrf_date_response vrf_date_registration
           vrf_interval_hours sr_date_response sr_date_registration].
    rewrite Hrs, Hreg.
    repeat split; try assumption. units. lia.
  - repeat split; try reflexivity.
    + vm_compute. tauto.
    + vm_compute. discriminate.
Qed.

(** ** The dashboard rows and the examples of the specification *)

Lemma in_dash_client_service_view sl raw cal roster row :
  In row (dash_client_service_view sl raw cal roster) ->
  exists dc vrf,
    In dc roster /\
    in_source_list sl (cand_source_client dc) = true /\
    match vrf with
    | Some v => In v (v_response_first sl raw cal) /\ vrf_id_client v = cand_ID dc
    | None => forall v, In v (v_response_first sl raw cal) ->
                        vrf_id_client v <> cand_ID dc
    end /\
    row = dash_of (dc, vrf).
Proof.
  unfold dash_client_service_view. rewrite in_map_iff.
  intros ([dc vrf] & <- & Hj). apply filter_In in Hj as (Hj & Hsrc).
  apply in_left_join in Hj as (Hdc & Hv).
  exists dc, vrf. repeat split; try assumption.
  destruct vrf as [v|].
  - destruct Hv as (Hv & Heq). apply Z.eqb_eq in Heq. auto.
  - intros v Hin. apply Z.eqb_neq. auto.
Qed.

(** X15. A dashboard row is "wait" exactly when it has no response, and then it
    has no [interval_hours] either; otherwise it is "done". *)
Lemma dash_status sl raw cal roster row :
  In row (dash_client_service_view sl raw cal roster) ->
  match dash_date_response row with
  | None => response_status row = "wait"%string /\ dash_interval_hours row = None
  | Some _ => response_status row = "done"%string
  end.
Proof.
  intros Hrow.
  apply in_dash_client_service_view in Hrow as (dc & vrf & _ & _ & Hv & ->).
  destruct vrf as [v|]; cbn; [|auto].
  destruct Hv as (Hv & _). apply in_v_response_first in Hv as (s & _ & ->).
  cbn. destruct (sr_date_response s); auto.
Qed.

(** Running the refresh again on its own result changes nothing. *)
Lemma refresh_idempotent m view table :
  refresh m view (fst (refresh m view table)) = refresh m view table.
Proof. destruct m, view; reflexivity. Qed.

(** Friday 21:30 is registered on Monday 09:00, Tuesday 08:10 on Tuesday
    09:00, a Sunday request on Monday 09:00, and Tuesday 14:00 answered at
    16:30 took 2.50 hours. *)
Lemma specification_examples :
  map sr_date_registration
    (shift_request Sample.calendar
       [Sample.request 1 (at_time Sample.Fri7 21 30) None;
        Sample.request 2 (at_time Sample.Tue4 8 10) None;
        Sample.request 3 (at_hour Sample.Sun2 10) None])
  = [Some (at_hour Sample.Mon10 9); Some (at_hour Sample.Tue4 9);
     Some (at_hour Sample.Mon3 9)] /\
  map vrf_interval_hours
    (v_response_first Sample.sources
       [Sample.event 4 (at_hour Sample.Tue4 14) (Some (at_time Sample.Tue4 16 30))]
       Sample.calendar)
  = [Some 250].
Proof. split; reflexivity. Qed.

(** * Further properties of the pipeline *)

(** ** Dates and times of day *)

Lemma to_date_date_plus d i :
  0 <= i < USECS_PER_DAY -> to_date (date_plus d i) = d.
Proof.
  intros Hi. unfold to_date, date_plus.
  rewrite Z.add_comm, Z.div_add by discriminate.
  rewrite Z.div_small by assumption. reflexivity.
Qed.

Lemma to_time_date_plus d i :
  0 <= i < USECS_PER_DAY -> to_time (date_plus d i) = i.
Proof.
  intros Hi. unfold to_time, date_plus.
  rewrite Z.add_comm, Z.mod_add by discriminate.
  apply Z.mod_small. assumption.
Qed.

(** ** The second WHEN: before opening on a working day *)

(** X1. A request on a working calendar date, Friday or not, with time of day
    before 09:00 is registered at 09:00 of the same date. *)
Theorem registration_same_day_opening cal frs fr dc :
  In (fr, Some dc) (join_calendar cal frs) ->
  is_working dc = 1 ->
  time_req fr < clock 9 ->
  sr_date_registration (shift_row cal (fr, Some dc))
  = Some (at_hour (date_req fr) 9) /\
  In (shift_row cal (fr, Some dc)) (shift_request cal frs).
Proof.
  intros Hj Hw Ht. split; [|apply shift_row_in; assumption].
  cbn [shift_row sr_date_registration]. unfold date_registration.
  cbn [option_map]. rewrite Hw.
  unfold when_next_working, when_before_opening, when_after_closing.
  conds; try reflexivity; units; lia.
Qed.

Lemma registration_same_day_opening_witness :
  sr_date_registration
    (shift_row Sample.calendar
       (Sample.request 1 (at_time Sample.Fri7 8 10) None,
        Some (mk_calendar Sample.Fri7 1)))
  = Some (at_hour Sample.Fri7 9) /\
  In (shift_row Sample.calendar
        (Sample.request 1 (at_time Sample.Fri7 8 10) None,
         Some (mk_calendar Sample.Fri7 1)))
     (shift_request Sample.calendar
        [Sample.request 1 (at_time Sample.Fri7 8 10) None]).
Proof.
  apply (registration_same_day_opening Sample.calendar
           [Sample.request 1 (at_time Sample.Fri7 8 10) None]
           (Sample.request 1 (at_time Sample.Fri7 8 10) None)
           (mk_calendar Sample.Fri7 1)).
  - vm_compute. left. reflexivity.
  - reflexivity.
  - reflexivity.
Defined.

(** ** The clock starts within business hours *)

(** X2. When the calendar row of the request date is flagged 0 or 1, a
    registration timestamp that is not NULL has its time of day between
    09:00 and 20:00, both included. *)
Theorem registration_in_business_hours cal frs fr dc r :
  In (fr, Some dc) (join_calendar cal frs) ->
  is_working dc = 0 \/ is_working dc = 1 ->
  sr_date_registration (shift_row cal (fr, Some dc)) = Some r ->
  clock 9 <= to_time r <= clock 20.
Proof.
  intros _ Hw. cbn [shift_row sr_date_registration].
  unfold date_registration. cbn [option_map].
  assert (H9 : forall d, to_time (date_plus d (hours 9)) = clock 9)
    by (intros d; apply to_time_date_plus; units; lia).
  assert (H33 : to_time (date_plus (date_req fr) (days 1 + hours 9)) = clock 9).
  { replace (date_plus (date_req fr) (days 1 + hours 9))
      with (date_plus (date_req fr + 1) (hours 9)) by (units; lia).
    apply H9. }
  destruct (Sql.holds (when_next_working _ fr)) eqn:E1.
  - destruct (next_working_date cal (date_req fr)) as [d|]; [|discriminate].
    intros [= <-]. rewrite H9. units. lia.
  - destruct (Sql.holds (when_before_opening _ fr)) eqn:E2.
    + intros [= <-]. rewrite H9. units. lia.
    + destruct (Sql.holds (when_after_closing _ fr)) eqn:E3.
      * intros Hr.
        assert (Hr' : r = date_plus (date_req fr) (days 1 + hours 9))
          by congruence.
        rewrite Hr', H33. units. lia.
      * intros [= <-]. fold (time_req fr).
        revert E1 E2 E3.
        unfold when_next_working, when_before_opening, when_after_closing.
        destruct Hw as [-> | ->]; conds; intros; try discriminate; lia.
Qed.

Lemma registration_in_business_hours_witness :
  clock 9 <= to_time (at_hour Sample.Mon10 9) <= clock 20.
Proof.
  apply (registration_in_business_hours Sample.calendar
           [Sample.request 1 (at_time Sample.Sat8 23 0) None]
           (Sample.request 1 (at_time Sample.Sat8 23 0) None)
           (mk_calendar Sample.Sat8 0)).
  - vm_compute. left. reflexivity.
  - left. reflexivity.
  - reflexivity.
Defined.

(** ** A flag other than 0 and 1 *)

(** X3. When the calendar row of the request date carries an [is_working] that
    is neither 0 nor 1, no WHEN condition is true and the registration
    timestamp is the request timestamp, at any time of day. *)
Theorem registration_on_other_flag cal frs fr dc :
  In (fr, Some dc) (join_calendar cal frs) ->
  is_working dc <> 0 ->
  is_working dc <> 1 ->
  sr_date_registration (shift_row cal (fr, Some dc)) = Some (date_request fr) /\
  In (shift_row cal (fr, Some dc)) (shift_request cal frs).
Proof.
  intros Hj H0 H1. split; [|apply shift_row_in; assumption].
  cbn [shift_row sr_date_registration]. unfold date_registration.
  cbn [option_map].
  unfold when_next_working, when_before_opening, when_after_closing.
  conds; try reflexivity; contradiction.
Qed.

Lemma registration_on_other_flag_witness :
  sr_date_registration
    (shift_row [mk_calendar Sample.Sun2 2; mk_calendar Sample.Mon3 1]
       (Sample.request 1 (at_time Sample.Sun2 23 0) None,
        Some (mk_calendar Sample.Sun2 2)))
  = Some (at_time Sample.Sun2 23 0) /\
  In (shift_row [mk_calendar Sample.Sun2 2; mk_calendar Sample.Mon3 1]
        (Sample.request 1 (at_time Sample.Sun2 23 0) None,
         Some (mk_calendar Sample.Sun2 2)))
     (shift_request [mk_calendar Sample.Sun2 2; mk_calendar Sample.Mon3 1]
        [Sample.request 1 (at_time Sample.Sun2 23 0) None]).
Proof.
  apply (registration_on_other_flag
           [mk_calendar Sample.Sun2 2; mk_calendar Sample.Mon3 1]
           [Sample.request 1 (at_time Sample.Sun2 23 0) None]
           (Sample.request 1 (at_time Sample.Sun2 23 0) None)
           (mk_calendar Sample.Sun2 2)).
  - vm_compute. left. reflexivity.
  - vm_compute. discriminate.
  - vm_compute. discriminate.
Defined.

(** ** The calendar is read as a set of rows *)

Lemma working_after_same_rows cal cal' d m :
  (forall e, In e cal <-> In e cal') ->
  working_after cal d m -> working_after cal' d m.
Proof.
  intros Hrows (Hlt & e & He & Hd & Hw). split; [assumption|].
  exists e. split; [apply Hrows; assumption | auto].
Qed.

Lemma next_working_date_same_rows cal cal' d :
  (forall e, In e cal <-> In e cal') ->
  next_working_date cal d = next_working_date cal' d.
Proof.
  intros Hrows.
  assert (Hrows' : forall e, In e cal' <-> In e cal)
    by (intros e; symmetry; apply Hrows).
  destruct (next_working_date cal d) as [m|] eqn:E,
           (next_working_date cal' d) as [m'|] eqn:E'.
  - apply next_working_date_Some in E as (Hm & Hmin).
    apply next_working_date_Some in E' as (Hm' & Hmin').
    f_equal. apply Z.le_antisymm.
    + apply Hmin. eapply working_after_same_rows; eauto.
    + apply Hmin'. eapply working_after_same_rows; eauto.
  - apply next_working_date_Some in E as (Hm & _).
    exfalso. apply (proj1 (next_working_date_None _ _) E' m).
    eapply working_after_same_rows; eauto.
  - apply next_working_date_Some in E' as (Hm' & _).
    exfalso. apply (proj1 (next_working_date_None _ _) E m').
    eapply working_after_same_rows; eauto.
  - reflexivity.
Qed.

(** X4. The registration timestamp of a joined row depends on the calendar only
    through the set of its rows: neither their order nor repeated rows
    change it. *)
Theorem date_registration_same_rows cal cal' fr dc :
  (forall e, In e cal <-> In e cal') ->
  date_registration cal fr dc = date_registration cal' fr dc.
Proof.
  intros Hrows. unfold date_registration.
  rewrite (next_working_date_same_rows cal cal' _ Hrows). reflexivity.
Qed.

Lemma date_registration_same_rows_witness :
  date_registration
    [mk_calendar Sample.Sun2 0; mk_calendar Sample.Tue4 1; mk_calendar Sample.Mon3 1]
    (Sample.request 1 (at_hour Sample.Sun2 10) None)
    (Some (mk_calendar Sample.Sun2 0))
  = date_registration
      [mk_calendar Sample.Mon3 1; mk_calendar Sample.Tue4 1;
       mk_calendar Sample.Sun2 0; mk_calendar Sample.Mon3 1]
      (Sample.request 1 (at_hour Sample.Sun2 10) None)
      (Some (mk_calendar Sample.Sun2 0)).
Proof.
  apply (date_registration_same_rows
           [mk_calendar Sample.Sun2 0; mk_calendar Sample.Tue4 1;
            mk_calendar Sample.Mon3 1]
           [mk_calendar Sample.Mon3 1; mk_calendar Sample.Tue4 1;
            mk_calendar Sample.Sun2 0; mk_calendar Sample.Mon3 1]).
  intros e. simpl. tauto.
Defined.

(** ** The LEFT JOIN with the calendar loses no first response *)

Lemma join_calendar_covers cal frs fr :
  In fr frs -> exists dc, In (fr, dc) (join_calendar cal frs).
Proof.
  intros Hfr.
  destruct (filter (fun e => date_req fr =? date_calendar e) cal) as [|e es] eqn:E.
  - exists None. apply in_join_calendar. split; [assumption|].
    intros e He Heq.
    assert (Hin : In e (filter (fun e => date_req fr =? date_calendar e) cal)).
    { apply filter_In. split; [assumption|]. apply Z.eqb_eq. congruence. }
    rewrite E in Hin. destruct Hin.
  - exists (Some e). apply in_join_calendar. split; [assumption|].
    assert (Hin : In e (filter (fun e => date_req fr =? date_calendar e) cal))
      by (rewrite E; left; reflexivity).
    apply filter_In in Hin as (Hin & Heq). apply Z.eqb_eq in Heq. auto.
Qed.

(** X5. Every row of [first_response] comes out of [shift_request] with its
    client, manager, request and response unchanged, whatever the calendar
    holds; and every row of [shift_request] is such a row. *)
Theorem shift_request_keeps_rows cal frs :
  (forall fr, In fr frs ->
     exists row, In row (shift_request cal frs) /\
       sr_id_client row = id_client fr /\ sr_manager row = manager fr /\
       sr_date_request row = date_request fr /\
       sr_date_response row = date_response fr) /\
  (forall row, In row (shift_request cal frs) ->
     exists fr, In fr frs /\
       sr_id_client row = id_client fr /\ sr_manager row = manager fr /\
       sr_date_request row = date_request fr /\
       sr_date_response row = date_response fr).
Proof.
  split.
  - intros fr Hfr. destruct (join_calendar_covers cal frs fr Hfr) as (dc & Hj).
    exists (shift_row cal (fr, dc)). split; [apply shift_row_in; assumption|].
    repeat split.
  - intros row Hrow. apply in_shift_request in Hrow as (fr & dc & Hj & ->).
    apply in_join_calendar in Hj as (Hfr & _).
    exists fr. repeat split. assumption.
Qed.

(** ** The first response of a client *)

Lemma first_response_earliest_witness :
  (exists r,
      In r [Sample.event 1 (at_hour Sample.Tue4 10) (Some (at_hour Sample.Tue4 15));
            Sample.event 1 (at_hour Sample.Tue4 10) (Some (at_hour Sample.Tue4 11));
            Sample.event 1 (at_hour Sample.Tue4 10) None] /\
      is_response Sample.sources r = true /\
      Sample.request 1 (at_hour Sample.Tue4 10) (Some (at_hour Sample.Tue4 11))
      = mk_all_response (raw_id_client r) (raw_date_request r)
          (raw_date_response r) (raw_manager r) 1) /\
  (forall r,
      In r [Sample.event 1 (at_hour Sample.Tue4 10) (Some (at_hour Sample.Tue4 15));
            Sample.event 1 (at_hour Sample.Tue4 10) (Some (at_hour Sample.Tue4 11));
            Sample.event 1 (at_hour Sample.Tue4 10) None] ->
      is_response Sample.sources r = true ->
      raw_id_client r = 1 ->
      response_le (Some (at_hour Sample.Tue4 11)) (raw_date_response r) = true).
Proof.
  apply (first_response_earliest Sample.sources
           [Sample.event 1 (at_hour Sample.Tue4 10) (Some (at_hour Sample.Tue4 15));
            Sample.event 1 (at_hour Sample.Tue4 10) (Some (at_hour Sample.Tue4 11));
            Sample.event 1 (at_hour Sample.Tue4 10) None]
           (Sample.request 1 (at_hour Sample.Tue4 10)
              (Some (at_hour Sample.Tue4 11)))).
  vm_compute. left. reflexivity.
Defined.

Lemma response_le_antisym a b :
  response_le a b = true -> response_le b a = true -> a = b.
Proof.
  destruct a, b; simpl; try discriminate; try reflexivity.
  rewrite !Z.leb_le. intros. f_equal. lia.
Qed.

Lemma in_first_response sl raw x :
  In x (first_response sl raw) ->
  exists y ys,
    order_by_response
      (partition_of (id_client x) (filter (is_response sl) raw)) = y :: ys /\
    In y raw /\ is_response sl y = true /\ raw_id_client y = id_client x /\
    x = mk_all_response (raw_id_client y) (raw_date_request y)
          (raw_date_response y) (raw_manager y) 1.
Proof.
  rewrite first_response_flat_map, in_flat_map.
  intros (c & Hc & Hx).
  destruct (first_of_partition _ c Hc) as (y & ys & Ey & Hy & Hf).
  rewrite Hf in Hx. destruct Hx as [<- | []].
  apply filter_In in Hy as (Hy & Hyc). apply Z.eqb_eq in Hyc.
  apply filter_In in Hy as (Hy & Hq).
  subst c. cbn [id_client]. exists y, ys. repeat split; assumption.
Qed.

(** X8. Which of several tied rows is kept depends on the order of the scan,
    but the response timestamp kept does not: two first responses of the
    same client, computed from event logs with the same rows, agree on
    [date_response]. *)
Theorem first_response_time_order_free sl raw raw' x x' :
  (forall r, In r raw <-> In r raw') ->
  In x (first_response sl raw) ->
  In x' (first_response sl raw') ->
  id_client x = id_client x' ->
  date_response x = date_response x'.
Proof.
  intros Hrows Hx Hx' Hid.
  apply in_first_response in Hx as (y & ys & Ey & Hy & Hq & Hyc & ->).
  apply in_first_response in Hx' as (y' & ys' & Ey' & Hy' & Hq' & Hyc' & ->).
  cbn [id_client date_response] in *.
  apply response_le_antisym.
  - apply (order_by_response_head _ _ _ Ey).
    apply filter_In. split; [apply filter_In; split; [apply Hrows|]; assumption|].
    apply Z.eqb_eq. congruence.
  - apply (order_by_response_head _ _ _ Ey').
    apply filter_In. split; [apply filter_In; split; [apply Hrows|]; assumption|].
    apply Z.eqb_eq. congruence.
Qed.

Lemma first_response_time_order_free_witness :
  date_response
    (mk_all_response 1 (at_hour Sample.Tue4 10) (Some (at_hour Sample.Tue4 11))
       "first" 1)
  = date_response
      (mk_all_response 1 (at_hour Sample.Tue4 10) (Some (at_hour Sample.Tue4 11))
         "second" 1).
Proof.
  apply (first_response_time_order_free Sample.sources
           [mk_all_raw 1 (at_hour Sample.Tue4 10) (Some (at_hour Sample.Tue4 11))
              "first" "response" "source 1";
            mk_all_raw 1 (at_hour Sample.Tue4 10) (Some (at_hour Sample.Tue4 11))
              "second" "response" "source 1"]
           [mk_all_raw 1 (at_hour Sample.Tue4 10) (Some (at_hour Sample.Tue4 11))
              "second" "response" "source 1";
            mk_all_raw 1 (at_hour Sample.Tue4 10) (Some (at_hour Sample.Tue4 11))
              "first" "response" "source 1"]).
  - intros r. simpl. tauto.
  - vm_compute. left. reflexivity.
  - vm_compute. left. reflexivity.
  - reflexivity.
Defined.

(** ** [all_response] numbers every qualifying event once *)

Lemma filter_split_perm {A : Type} (p : A -> bool) l :
  Permutation (filter p l ++ filter (fun a => negb (p a)) l) l.
Proof.
  induction l as [|a l IH]; simpl; [constructor|].
  destruct (p a); simpl.
  - constructor. exact IH.
  - apply Permutation_sym, Permutation_cons_app, Permutation_sym. exact IH.
Qed.

Lemma flat_map_agree {A B : Type} (f g : A -> list B) l :
  (forall a, In a l -> f a = g a) -> flat_map f l = flat_map g l.
Proof.
  induction l as [|a l IH]; intros H; simpl; [reflexivity|].
  rewrite (H a (or_introl eq_refl)), IH; [reflexivity|].
  intros a' Ha'. apply H. right. assumption.
Qed.

Lemma map_flat_map {A B C : Type} (f : B -> C) (g : A -> list B) l :
  map f (flat_map g l) = flat_map (fun a => map f (g a)) l.
Proof.
  induction l as [|a l IH]; simpl; [reflexivity|].
  rewrite map_app, IH. reflexivity.
Qed.

Lemma partitions_perm ks : forall q,
  NoDup ks ->
  (forall r, In r q -> In (raw_id_client r) ks) ->
  Permutation (flat_map (fun c => partition_of c q) ks) q.
Proof.
  induction ks as [|k ks IH]; intros q Hnd Hkeys.
  - destruct q as [|r q]; [constructor|]. destruct (Hkeys r (or_introl eq_refl)).
  - apply NoDup_cons_iff in Hnd as (Hk & Hnd). cbn [flat_map].
    set (q2 := filter (fun r => negb (raw_id_client r =? k)) q).
    assert (Hrest : flat_map (fun c => partition_of c q) ks
                    = flat_map (fun c => partition_of c q2) ks).
    { apply flat_map_agree. intros c Hc. unfold partition_of, q2.
      induction q as [|r q IHq]; simpl; [reflexivity|].
      destruct (Z.eqb_spec (raw_id_client r) k) as [Hrk | Hrk]; simpl.
      - destruct (Z.eqb_spec (raw_id_client r) c) as [Hrc | Hrc].
        + exfalso. apply Hk. congruence.
        + apply IHq. intros r' Hr'. apply Hkeys. right. assumption.
      - destruct (raw_id_client r =? c); [f_equal|];
          apply IHq; intros r' Hr'; apply Hkeys; right; assumption. }
    rewrite Hrest.
    rewrite (IH q2 Hnd).
    + apply (filter_split_perm (fun r => raw_id_client r =? k)).
    + intros r Hr. apply filter_In in Hr as (Hr & Hne).
      destruct (Hkeys r Hr) as [Heq | Hin]; [|assumption].
      rewrite <- Heq, Z.eqb_refl in Hne. discriminate.
Qed.

Lemma row_number_events n l :
  map (fun x => (id_client x, date_request x, date_response x, manager x))
      (row_number n l)
  = map (fun r => (raw_id_client r, raw_date_request r, raw_date_response r,
                   raw_manager r)) l.
Proof.
  revert n. induction l as [|r rs IH]; intros n; simpl; [reflexivity|].
  rewrite IH. reflexivity.
Qed.

Lemma flat_map_perm {A B : Type} (g h : A -> list B) ks :
  (forall c, Permutation (g c) (h c)) ->
  Permutation (flat_map g ks) (flat_map h ks).
Proof.
  intros Hgh. induction ks as [|k ks IH]; simpl; [constructor|].
  apply Permutation_app; auto.
Qed.

(** X9. The window function neither drops nor repeats nor alters a row: up to
    order, [all_response] without its [rn] column is the bag of events
    whose action is "response" and whose source is in the allow-list. *)
Theorem all_response_events sl raw :
  Permutation
    (map (fun x => (id_client x, date_request x, date_response x, manager x))
         (all_response sl raw))
    (map (fun r => (raw_id_client r, raw_date_request r, raw_date_response r,
                    raw_manager r))
         (filter (is_response sl) raw)).
Proof.
  unfold all_response. set (q := filter (is_response sl) raw).
  rewrite map_flat_map.
  rewrite (flat_map_agree _
             (fun c => map (fun r => (raw_id_client r, raw_date_request r,
                                      raw_date_response r, raw_manager r))
                           (order_by_response (partition_of c q))))
    by (intros c _; apply row_number_events).
  transitivity
    (flat_map
       (fun c => map (fun r => (raw_id_client r, raw_date_request r,
                                raw_date_response r, raw_manager r))
                     (partition_of c q))
       (clients q)).
  - apply flat_map_perm. intros c.
    apply Permutation_map, order_by_response_perm.
  - rewrite <- map_flat_map.
    apply Permutation_map, partitions_perm.
    + apply NoDup_nodup.
    + intros r Hr. apply in_clients. eauto.
Qed.

Lemma row_number_bounds n l x :
  In x (row_number n l) ->
  n <= rn x < n + Z.of_nat (List.length l) /\
  exists r, In r l /\ id_client x = raw_id_client r.
Proof.
  revert n. induction l as [|r rs IH]; intros n; [intros []|].
  cbn [row_number List.length]. intros [<- | Hx].
  - cbn [rn id_client]. split; [lia|]. exists r. split; [left|]; reflexivity.
  - destruct (IH _ Hx) as (Hb & r' & Hr' & Hid).
    split; [lia|]. exists r'. split; [right|]; assumption.
Qed.

(** X10. In [all_response] the numbers of a client run from 1 to the number of
    its qualifying events. *)
Theorem all_response_rn_range sl raw x :
  In x (all_response sl raw) ->
  1 <= rn x <=
  Z.of_nat (List.length (partition_of (id_client x) (filter (is_response sl) raw))).
Proof.
  unfold all_response. rewrite in_flat_map. intros (c & _ & Hx).
  apply row_number_bounds in Hx as (Hb & r & Hr & Hid).
  rewrite (Permutation_length (order_by_response_perm _)) in Hb.
  apply (Permutation_in r (order_by_response_perm _)) in Hr.
  apply filter_In in Hr as (_ & Hc). apply Z.eqb_eq in Hc.
  replace (id_client x) with c by congruence. lia.
Qed.

Lemma all_response_rn_range_witness :
  1 <= rn (mk_all_response 1 (at_hour Sample.Tue4 10) None "manager" 2) <=
  Z.of_nat
    (List.length
       (partition_of
          (id_client (mk_all_response 1 (at_hour Sample.Tue4 10) None "manager" 2))
          (filter (is_response Sample.sources)
             [Sample.event 1 (at_hour Sample.Tue4 10) None;
              Sample.event 1 (at_hour Sample.Tue4 10) (Some (at_hour Sample.Tue4 11));
              Sample.event 2 (at_hour Sample.Tue4 12) None]))).
Proof.
  apply (all_response_rn_range Sample.sources
           [Sample.event 1 (at_hour Sample.Tue4 10) None;
            Sample.event 1 (at_hour Sample.Tue4 10) (Some (at_hour Sample.Tue4 11));
            Sample.event 2 (at_hour Sample.Tue4 12) None]).
  vm_compute. right. left. reflexivity.
Defined.

(** ** Rows per client after the join with the calendar *)

(** X6. [shift_request] returns, for each first response, as many rows as the
    calendar has rows for the request date, and one row when it has none. *)
Theorem shift_request_row_count cal frs :
  List.length (shift_request cal frs)
  = list_sum
      (map (fun fr =>
              Nat.max 1
                (List.length
                   (filter (fun e => date_req fr =? date_calendar e) cal)))
           frs).
Proof.
  unfold shift_request, join_calendar, Sql.left_join.
  rewrite length_map, length_flat_map. f_equal.
  apply map_ext. intros fr.
  destruct (filter (fun e => date_req fr =? date_calendar e) cal) as [|e es];
    [reflexivity|].
  rewrite length_map. reflexivity.
Qed.

Lemma first_response_count sl raw c :
  List.length (filter (fun x => id_client x =? c) (first_response sl raw))
  = count_occ Z.eq_dec (clients (filter (is_response sl) raw)) c.
Proof.
  rewrite first_response_flat_map. apply count_singletons.
  intros c' Hc'.
  destruct (first_of_partition _ c' Hc') as (r & rs & _ & Hr & ->).
  eexists. split; [reflexivity|]. simpl.
  apply filter_In in Hr as (_ & Hr). apply Z.eqb_eq. exact Hr.
Qed.

Lemma count_clients sl raw c :
  count_occ Z.eq_dec (clients (filter (is_response sl) raw)) c
  = if existsb (fun r => is_response sl r && (raw_id_client r =? c)) raw
    then 1%nat else 0%nat.
Proof.
  destruct (existsb _ raw) eqn:E.
  - apply has_response_spec in E.
    apply NoDup_count_occ'; [apply NoDup_nodup | exact E].
  - apply count_occ_not_In. intros Hin.
    apply has_response_spec in Hin. congruence.
Qed.

(** X11. With a calendar that lists no date twice, the view [v_response_first]
    holds exactly one row for a client with a qualifying event and none for
    any other client. *)
Theorem v_response_first_one_per_client sl raw cal c :
  NoDup (map date_calendar cal) ->
  List.length (filter (fun v => vrf_id_client v =? c) (v_response_first sl raw cal))
  = if existsb (fun r => is_response sl r && (raw_id_client r =? c)) raw
    then 1%nat else 0%nat.
Proof.
  intros Hnd.
  rewrite (v_response_first_rows_per_client sl raw cal c Hnd).
  rewrite first_response_count. apply count_clients.
Qed.

Lemma v_response_first_one_per_client_witness :
  List.length
    (filter (fun v => vrf_id_client v =? 1)
       (v_response_first Sample.sources
          [Sample.event 1 (at_hour Sample.Tue4 10) (Some (at_hour Sample.Tue4 11));
           Sample.event 1 (at_hour Sample.Tue4 10) (Some (at_hour Sample.Tue4 11))]
          Sample.calendar))
  = if existsb (fun r => is_response Sample.sources r && (raw_id_client r =? 1))
         [Sample.event 1 (at_hour Sample.Tue4 10) (Some (at_hour Sample.Tue4 11));
          Sample.event 1 (at_hour Sample.Tue4 10) (Some (at_hour Sample.Tue4 11))]
    then 1%nat else 0%nat.
Proof.
  apply (v_response_first_one_per_client Sample.sources
           [Sample.event 1 (at_hour Sample.Tue4 10) (Some (at_hour Sample.Tue4 11));
            Sample.event 1 (at_hour Sample.Tue4 10) (Some (at_hour Sample.Tue4 11))]
           Sample.calendar 1).
  vm_compute.
  repeat (constructor; [simpl; intuition discriminate|]). constructor.
Defined.

(** ** Sign and exact values of [interval_hours] *)

Lemma round_div_nonneg n d : 0 < d -> 0 <= n -> 0 <= Sql.round_div n d.
Proof.
  intros Hd Hn. unfold Sql.round_div.
  assert (0 <= (2 * Z.abs n + d) / (2 * d)) by (apply Z.div_pos; lia).
  destruct (Z.eq_dec n 0) as [-> | Hne]; [simpl; lia|].
  rewrite (Z.sgn_pos n) by lia. lia.
Qed.

Lemma round_hours_via_nonneg s u :
  2 <= s -> 0 <= u -> 0 <= round_hours_via s u.
Proof.
  intros Hs Hu. unfold round_hours_via.
  assert (0 < 10 ^ s) by (apply Z.pow_pos_nonneg; lia).
  assert (0 < 10 ^ (s - 2)) by (apply Z.pow_pos_nonneg; lia).
  apply round_div_nonneg; [assumption|].
  apply round_div_nonneg; [reflexivity|].
  apply Z.mul_nonneg_nonneg; lia.
Qed.

Lemma round_div_mul k d : 0 < d -> Sql.round_div (k * d) d = k.
Proof.
  intros Hd. destruct (round_div_nearest (k * d) d Hd) as (Hn & _).
  set (h := Sql.round_div (k * d) d) in *.
  replace (h * d - k * d) with ((h - k) * d) in Hn by ring.
  rewrite Z.abs_mul, (Z.abs_eq d) in Hn by lia.
  assert (Z.abs (h - k) < 1) by nia. lia.
Qed.

Lemma round_hours_via_mul s k :
  2 <= s -> round_hours_via s (k * USECS_PER_CENTIHOUR) = k.
Proof.
  intros Hs. unfold round_hours_via, USECS_PER_CENTIHOUR.
  set (j := 10 ^ (s - 2)).
  assert (Hj : 0 < j) by (apply Z.pow_pos_nonneg; lia).
  assert (E : 10 ^ s = 100 * j).
  { unfold j. change 100 with (10 ^ 2).
    rewrite <- Z.pow_add_r by lia. f_equal. lia. }
  rewrite E.
  replace (k * 36000000 * (100 * j)) with (k * j * (3600 * 1000000)) by ring.
  rewrite round_div_mul by reflexivity.
  apply round_div_mul. exact Hj.
Qed.

(** X12. A response that is not before the registration timestamp gives an
    [interval_hours] that is not negative. *)
Theorem interval_hours_nonnegative sl raw cal v rs rg :
  In v (v_response_first sl raw cal) ->
  vrf_date_response v = Some rs ->
  vrf_date_registration v = Some rg ->
  rg <= rs ->
  exists h, vrf_interval_hours v = Some h /\ 0 <= h.
Proof.
  intros Hv Hrs Hrg Hle. apply in_v_response_first in Hv as (s & _ & ->).
  cbn [with_interval vrf_date_response vrf_date_registration
         vrf_interval_hours] in *.
  rewrite Hrs, Hrg. cbn [interval_hours]. eexists. split; [reflexivity|].
  apply round_hours_via_nonneg; [|lia].
  pose proof (epoch_div_scale_range (rs - rg)). lia.
Qed.

Lemma interval_hours_nonnegative_witness :
  exists h,
    vrf_interval_hours
      (mk_vrf 1 "manager" (at_hour Sample.Tue4 14) (Some (at_hour Sample.Tue4 14))
         (Some (at_hour Sample.Tue4 14)) (Some 0)) = Some h /\ 0 <= h.
Proof.
  apply (interval_hours_nonnegative Sample.sources
           [Sample.event 1 (at_hour Sample.Tue4 14) (Some (at_hour Sample.Tue4 14))]
           Sample.calendar
           (mk_vrf 1 "manager" (at_hour Sample.Tue4 14)
              (Some (at_hour Sample.Tue4 14)) (Some (at_hour Sample.Tue4 14))
              (Some 0))
           (at_hour Sample.Tue4 14) (at_hour Sample.Tue4 14)).
  - vm_compute. left. reflexivity.
  - reflexivity.
  - reflexivity.
  - vm_compute. discriminate.
Defined.

(** X13. A difference of a whole number [k] of hundredths of an hour (36
    seconds each) is returned as [k] hundredths, with no rounding error. *)
Theorem interval_hours_exact rs rg k :
  rs - rg = k * USECS_PER_CENTIHOUR ->
  interval_hours (Some rs) (Some rg) = Some k.
Proof.
  intros Hk. cbn [interval_hours]. f_equal. rewrite Hk.
  apply round_hours_via_mul.
  pose proof (epoch_div_scale_range (k * USECS_PER_CENTIHOUR)). lia.
Qed.

Lemma interval_hours_exact_witness :
  interval_hours (Some (at_time Sample.Tue4 16 30)) (Some (at_hour Sample.Tue4 14))
  = Some 250.
Proof.
  apply (interval_hours_exact (at_time Sample.Tue4 16 30)
           (at_hour Sample.Tue4 14) 250).
  reflexivity.
Defined.

Lemma interval_hours_negative_witness :
  exists h,
    vrf_interval_hours
      (mk_vrf 1 "manager" (at_time Sample.Tue4 8 10)
         (Some (at_time Sample.Tue4 8 30)) (Some (at_hour Sample.Tue4 9))
         (Some (-50))) = Some h /\ h < 0.
Proof.
  apply (interval_hours_negative Sample.sources
           [Sample.event 1 (at_time Sample.Tue4 8 10)
              (Some (at_time Sample.Tue4 8 30))]
           Sample.calendar
           (mk_vrf 1 "manager" (at_time Sample.Tue4 8 10)
              (Some (at_time Sample.Tue4 8 30)) (Some (at_hour Sample.Tue4 9))
              (Some (-50)))
           (at_time Sample.Tue4 8 30) (at_hour Sample.Tue4 9)).
  - vm_compute. left. reflexivity.
  - reflexivity.
  - reflexivity.
  - vm_compute. discriminate.
Defined.

(** ** The dashboard view and the roster *)

Lemma left_join_covers {A B : Type} (on : A -> B -> bool) l r a :
  In a l -> exists ob, In (a, ob) (Sql.left_join on l r).
Proof.
  intros Ha. destruct (filter (on a) r) as [|b bs] eqn:E.
  - exists None. apply in_left_join. split; [assumption|].
    intros b Hb. destruct (on a b) eqn:Eb; [|reflexivity].
    assert (Hin : In b (filter (on a) r)) by (apply filter_In; auto).
    rewrite E in Hin. destruct Hin.
  - exists (Some b). apply in_left_join. split; [assumption|].
    assert (Hin : In b (filter (on a) r)) by (rewrite E; left; reflexivity).
    apply filter_In in Hin. exact Hin.
Qed.

Lemma dash_status_witness :
  match dash_date_response
          (mk_dash 5 "wait" (at_hour Sample.Tue4 10) None None None None) with
  | None =>
      response_status
        (mk_dash 5 "wait" (at_hour Sample.Tue4 10) None None None None)
      = "wait"%string /\
      dash_interval_hours
        (mk_dash 5 "wait" (at_hour Sample.Tue4 10) None None None None) = None
  | Some _ =>
      response_status
        (mk_dash 5 "wait" (at_hour Sample.Tue4 10) None None None None)
      = "done"%string
  end.
Proof.
  apply (dash_status Sample.sources [] Sample.calendar
           [Sample.roster 5 (at_hour Sample.Tue4 10)]).
  vm_compute. left. reflexivity.
Defined.

(** X16. The dashboard shows the roster entries whose source is in the
    allow-list, all of them and nothing else: every row carries the
    [id_client] and [date_request] of such an entry, and every such entry
    has a row, answered or not. *)
Theorem dash_rows_are_roster_entries sl raw cal roster :
  (forall row, In row (dash_client_service_view sl raw cal roster) ->
     exists dc, In dc roster /\
       in_source_list sl (cand_source_client dc) = true /\
       dash_id_client row = cand_id_client dc /\
       dash_date_request row = cand_date_request dc) /\
  (forall dc, In dc roster ->
     in_source_list sl (cand_source_client dc) = true ->
     exists row, In row (dash_client_service_view sl raw cal roster) /\
       dash_id_client row = cand_id_client dc /\
       dash_date_request row = cand_date_request dc).
Proof.
  split.
  - intros row Hrow.
    apply in_dash_client_service_view in Hrow as (dc & vrf & Hdc & Hsrc & _ & ->).
    exists dc. repeat split; assumption.
  - intros dc Hdc Hsrc.
    destruct (left_join_covers
                (fun dc vrf => vrf_id_client vrf =? cand_ID dc)
                roster (v_response_first sl raw cal) dc Hdc) as (vrf & Hj).
    exists (dash_of (dc, vrf)). split; [|split; reflexivity].
    unfold dash_client_service_view. apply in_map, filter_In.
    split; assumption.
Qed.

(** X17. A roster entry of an allowed source whose ["ID"] has no qualifying
    event is shown once as waiting: status "wait" and NULL registration,
    response, [interval_hours] and manager. *)
Theorem dash_waiting_row sl raw cal roster dc :
  In dc roster ->
  in_source_list sl (cand_source_client dc) = true ->
  (forall r, In r raw -> is_response sl r = true -> raw_id_client r <> cand_ID dc) ->
  In (mk_dash (cand_id_client dc) "wait" (cand_date_request dc)
        None None None None)
     (dash_client_service_view sl raw cal roster).
Proof.
  intros Hdc Hsrc Hnone.
  unfold dash_client_service_view.
  change (mk_dash (cand_id_client dc) "wait" (cand_date_request dc)
            None None None None) with (dash_of (dc, None)).
  apply in_map, filter_In. split; [|assumption].
  apply in_left_join. split; [assumption|].
  intros v Hv. apply Z.eqb_neq.
  apply in_v_response_first in Hv as (s & Hs & ->).
  apply in_shift_request in Hs as (fr & dc' & Hj & ->).
  apply in_join_calendar in Hj as (Hfr & _).
  apply in_first_response in Hfr as (y & _ & _ & Hy & Hq & Hid & _).
  cbn. rewrite <- Hid. apply Hnone; assumption.
Qed.

Lemma dash_waiting_row_witness :
  In (mk_dash 5 "wait" (at_hour Sample.Tue4 10) None None None None)
     (dash_client_service_view Sample.sources
        [Sample.event 1 (at_hour Sample.Tue4 14) (Some (at_hour Sample.Tue4 15));
         mk_all_raw 5 (at_hour Sample.Tue4 10) (Some (at_hour Sample.Tue4 11))
           "manager" "call" "source 1"]
        Sample.calendar
        [Sample.roster 5 (at_hour Sample.Tue4 10)]).
Proof.
  apply (dash_waiting_row Sample.sources
           [Sample.event 1 (at_hour Sample.Tue4 14) (Some (at_hour Sample.Tue4 15));
            mk_all_raw 5 (at_hour Sample.Tue4 10) (Some (at_hour Sample.Tue4 11))
              "manager" "call" "source 1"]
           Sample.calendar
           [Sample.roster 5 (at_hour Sample.Tue4 10)]
           (Sample.roster 5 (at_hour Sample.Tue4 10))).
  - left. reflexivity.
  - reflexivity.
  - intros r [<- | [<- | []]]; vm_compute; discriminate.
Defined.

(** X18. With a calendar that lists no date twice, the dashboard has exactly one
    row for each roster entry of an allowed source. *)
Theorem dash_one_row_per_roster_entry sl raw cal roster :
  NoDup (map date_calendar cal) ->
  List.length (dash_client_service_view sl raw cal roster)
  = List.length
      (filter (fun dc => in_source_list sl (cand_source_client dc)) roster).
Proof.
  intros Hnd. unfold dash_client_service_view. rewrite length_map.
  pose proof (left_join_at_most_one
                (fun dc vrf => vrf_id_client vrf =? cand_ID dc)
                roster (v_response_first sl raw cal)) as Hj.
  rewrite <- Hj at 2.
  - rewrite filter_map_length. reflexivity.
  - intros dc _.
    rewrite (v_response_first_rows_per_client sl raw cal (cand_ID dc) Hnd).
    rewrite first_response_count, count_clients.
    destruct (existsb _ raw); lia.
Qed.

Lemma dash_one_row_per_roster_entry_witness :
  List.length
    (dash_client_service_view Sample.sources
       [Sample.event 1 (at_hour Sample.Tue4 14) (Some (at_hour Sample.Tue4 15));
        Sample.event 1 (at_hour Sample.Tue4 14) (Some (at_hour Sample.Tue4 16))]
       Sample.calendar
       [Sample.roster 1 (at_hour Sample.Tue4 14);
        Sample.roster 5 (at_hour Sample.Tue4 10);
        mk_candidate 6 6 (at_hour Sample.Tue4 10) "source 9"])
  = List.length
      (filter (fun dc => in_source_list Sample.sources (cand_source_client dc))
         [Sample.roster 1 (at_hour Sample.Tue4 14);
          Sample.roster 5 (at_hour Sample.Tue4 10);
          mk_candidate 6 6 (at_hour Sample.Tue4 10) "source 9"]).
Proof.
  apply (dash_one_row_per_roster_entry Sample.sources
           [Sample.event 1 (at_hour Sample.Tue4 14) (Some (at_hour Sample.Tue4 15));
            Sample.event 1 (at_hour Sample.Tue4 14) (Some (at_hour Sample.Tue4 16))]
           Sample.calendar).
  vm_compute.
  repeat (constructor; [simpl; intuition discriminate|]). constructor.
Defined.

(** ** A series of refreshes *)

(** X19. After a series of refreshes run as one transaction each, the table
    holds the rows of the last view that could be read, and its original
    contents when none could; run statement by statement, only the last
    refresh counts: the table holds the rows of its view, or nothing when
    that view could not be read. *)
Theorem refresh_series_last m views table :
  fold_left (fun t v => fst (refresh m v t)) views table
  = match m with
    | OneTransaction => last_read views table
    | Autocommit =>
        match rev views with
        | [] => table
        | Some rows :: _ => rows
        | None :: _ => []
        end
    end.
Proof.
  destruct m.
  - induction views as [|view views IH] using rev_ind; [reflexivity|].
    rewrite fold_left_app, rev_app_distr. cbn [fold_left rev app].
    destruct view; reflexivity.
  - unfold last_read. revert table.
    induction views as [|view views IH]; intros table; [reflexivity|].
    cbn [fold_left]. rewrite IH. destruct view; reflexivity.
Qed.
